(** * k8eraid: node polling ([pkgs/queries/node.go])

    A shallow embedding of [PollNode] and [checkNode] and the properties of
    the node-selection and condition-evaluation logic.

    The Go code talks to three collaborators: the cluster client
    ([clientset.CoreV1().Nodes()]), the wall clock ([time.Now()]) and the
    alert function handed in by the caller.  They are modelled as operations
    on an abstract world; every call is recorded, in order, in a trace of
    events, so that "how many dispatches", "which fetches" and "in which
    order" are statements about that trace. *)

From Stdlib Require Import ZArith List String Ascii Bool Lia.
Import ListNotations.

Local Open Scope Z_scope.

(** ** Machine integers

    Go's [int64] and [int32] are represented by integers in range; the
    arithmetic of the code wraps around, which is written out here. *)

Module Int64.
Definition modulus : Z := 2 ^ 64.
Definition min_signed : Z := - 2 ^ 63.
Definition max_signed : Z := 2 ^ 63 - 1.
Definition wrap (z : Z) : Z := (z + 2 ^ 63) mod modulus - 2 ^ 63.
Definition sub (a b : Z) : Z := wrap (a - b).
Definition in_range (z : Z) : Prop := min_signed <= z <= max_signed.
End Int64.

Module Int32.
Definition modulus : Z := 2 ^ 32.
Definition min_signed : Z := - 2 ^ 31.
Definition max_signed : Z := 2 ^ 31 - 1.
(** The conversion [int32(x)] of an [int]: truncation to 32 bits. *)
Definition wrap (z : Z) : Z := (z + 2 ^ 31) mod modulus - 2 ^ 31.
Definition in_range (z : Z) : Prop := min_signed <= z <= max_signed.
End Int32.

(** ** Data model

    Only the fields [node.go] reads are kept.  A [metav1.Time] is
    represented by the value of its [Unix()] method (seconds, an [int64]);
    an [error] by the text of its [Error()] method. *)

Module metav1.
Record ObjectMeta : Type := {
  Name : string;
  CreationTimestamp : Z
}.

Record ListOptions : Type := {
  LabelSelector : string;
  IncludeUninitialized : bool;
  Watch : bool;
  TimeoutSeconds : option Z
}.
End metav1.

Module corev1.
(** [Type_] is the Go field [Type], a [NodeConditionType], which is a
    string. *)
Record NodeCondition : Type := {
  Type_ : string;
  LastTransitionTime : Z
}.

Record NodeStatus : Type := {
  Conditions : list NodeCondition
}.

Record Node : Type := {
  ObjectMeta : metav1.ObjectMeta;
  Status : NodeStatus
}.

Record NodeList : Type := {
  Items : list Node
}.

Definition GetName (n : Node) : string := metav1.Name (ObjectMeta n).
End corev1.

(** Modelled from the spec: the package [pkgs/types] is not part of the
    sources at hand.  The fields are the ones [node.go] uses; their types
    are forced by that use: [PendingThreshold] is compared with an [int64],
    [MinNodes] with an [int32], [Name] with a string literal, the opt-in
    flags stand in boolean conjunctions. *)
Module types.
Record NodeReportStatusSpec : Type := {
  MinNodes : Z;
  NodeReady : bool;
  NodeOutOfDisk : bool;
  NodeMemoryPressure : bool;
  NodeDiskPressure : bool;
  PendingThreshold : Z
}.

Record NodeAlertSpec : Type := {
  Name : string;
  AlerterType : string;
  AlerterName : string;
  ReportStatus : NodeReportStatusSpec;
  NodeFilter : string
}.

(** The assignment [alertSpec.ReportStatus.PendingThreshold = v] on the
    callee's copy of the spec. *)
Definition setPendingThreshold (alertSpec : NodeAlertSpec) (v : Z)
  : NodeAlertSpec :=
  let rs := ReportStatus alertSpec in
  {| Name := Name alertSpec;
     AlerterType := AlerterType alertSpec;
     AlerterName := AlerterName alertSpec;
     ReportStatus :=
       {| MinNodes := MinNodes rs;
          NodeReady := NodeReady rs;
          NodeOutOfDisk := NodeOutOfDisk rs;
          NodeMemoryPressure := NodeMemoryPressure rs;
          NodeDiskPressure := NodeDiskPressure rs;
          PendingThreshold := v |};
     NodeFilter := NodeFilter alertSpec |}.
End types.

(** Modelled from the spec: [PollErr] is declared in another file of the
    package; [node.go] only builds it from its [Message]. *)
Record PollErr : Type := { Message : string }.

(** [fmt.Sprint] on operands that are all strings: Go puts a space between
    two operands only when neither is a string, so the operands are just
    concatenated.  The same function stands for [fmt.Sprintf] with a format
    made of literal text and [%s] verbs applied to strings, the pieces
    being the literal parts and the arguments in order. *)
Definition Sprint (operands : list string) : string :=
  String.concat "" operands.

(** ** The environment and the trace of calls *)

Section Events.
Variable Cfg : Type.

(** One call to a collaborator, with what it returned. *)
Inductive Event : Type :=
| EvNow (seconds : Z)
| EvGet (name : string) (r : corev1.Node + string)
| EvList (opts : metav1.ListOptions) (r : corev1.NodeList + string)
| EvAlert (alerterType alerterName message : string) (cfg : Cfg).

Definition isAlert (e : Event) : bool :=
  match e with EvAlert _ _ _ _ => true | _ => false end.

Definition isFetch (e : Event) : bool :=
  match e with EvGet _ _ | EvList _ _ => true | _ => false end.

(** A fetch that returned an error. *)
Definition fetchFailed (e : Event) : bool :=
  match e with
  | EvGet _ (inr _) | EvList _ (inr _) => true
  | _ => false
  end.

(** The dispatch calls of a trace, in order. *)
Definition dispatches (tr : list Event) : list Event := filter isAlert tr.

(** The fetch calls of a trace, in order. *)
Definition fetches (tr : list Event) : list Event := filter isFetch tr.

(** The messages dispatched in a trace, in order. *)
Fixpoint messages (tr : list Event) : list string :=
  match tr with
  | [] => []
  | EvAlert _ _ m _ :: tr' => m :: messages tr'
  | _ :: tr' => messages tr'
  end.

(** The names asked for by the fetch-by-name calls of a trace, in order. *)
Fixpoint getNames (tr : list Event) : list string :=
  match tr with
  | [] => []
  | EvGet n _ :: tr' => n :: getNames tr'
  | _ :: tr' => getNames tr'
  end.
End Events.

Arguments EvNow {Cfg} seconds.
Arguments EvGet {Cfg} name r.
Arguments EvList {Cfg} opts r.
Arguments EvAlert {Cfg} alerterType alerterName message cfg.
Arguments isAlert {Cfg} e.
Arguments isFetch {Cfg} e.
Arguments fetchFailed {Cfg} e.
Arguments dispatches {Cfg} tr.
Arguments fetches {Cfg} tr.
Arguments messages {Cfg} tr.
Arguments getNames {Cfg} tr.

(** The collaborators of one poll: the clock, the node client of the
    clientset, the alert function, and the package variable [timeout],
    which [node.go] reads but does not declare.  Each operation may depend
    on, and change, the state [W] of the outside world. *)
Record Env (W Cfg : Type) : Type := {
  timeNowUnix : W -> Z * W;
  nodesGet : string -> W -> (corev1.Node + string) * W;
  nodesList : metav1.ListOptions -> W -> (corev1.NodeList + string) * W;
  alertFn : string -> string -> string -> Cfg -> W -> W;
  timeout : Z
}.

Arguments timeNowUnix {W Cfg} e w.
Arguments nodesGet {W Cfg} e name w.
Arguments nodesList {W Cfg} e opts w.
Arguments alertFn {W Cfg} e alerterType alerterName message cfg w.
Arguments timeout {W Cfg} e.

(** What a computation leaves behind: its value, the calls it made, and
    the world after them. *)
Record Outcome (W Cfg A : Type) : Type := {
  value : A;
  events : list (@Event Cfg);
  world : W
}.

Arguments Build_Outcome {W Cfg A} value events world.
Arguments value {W Cfg A} o.
Arguments events {W Cfg A} o.
Arguments world {W Cfg A} o.

(** ** The program *)

Section Poll.
Context {W Cfg : Type}.
Variable env : Env W Cfg.

(** Computations that call the collaborators. *)
Definition IO (A : Type) : Type := W -> Outcome W Cfg A.

Definition ret {A : Type} (a : A) : IO A :=
  fun w => Build_Outcome a [] w.

Definition bind {A B : Type} (m : IO A) (k : A -> IO B) : IO B :=
  fun w =>
    let o := m w in
    let o' := k (value o) (world o) in
    Build_Outcome (value o') (events o ++ events o') (world o').

Local Notation "x <- m ;; k" := (bind m (fun x => k))
  (at level 100, m at next level, right associativity).
Local Notation "m ;;; k" := (bind m (fun _ => k))
  (at level 100, right associativity).

(** [time.Now().Unix()] *)
Definition now : IO Z :=
  fun w =>
    let (t, w') := timeNowUnix env w in
    Build_Outcome t [EvNow t] w'.

(** [clientset.CoreV1().Nodes().Get(name, metav1.GetOptions{})] *)
Definition Get (name : string) : IO (corev1.Node + string) :=
  fun w =>
    let (r, w') := nodesGet env name w in
    Build_Outcome r [EvGet name r] w'.

(** [clientset.CoreV1().Nodes().List(listopts)] *)
Definition List_ (listopts : metav1.ListOptions)
  : IO (corev1.NodeList + string) :=
  fun w =>
    let (r, w') := nodesList env listopts w in
    Build_Outcome r [EvList listopts r] w'.

(** [alertFn(alerterType, alerterName, alertmessage, alertersConfig)];
    its result, if any, is not looked at. *)
Definition alert (alerterType alerterName alertmessage : string)
    (alertersConfig : Cfg) : IO unit :=
  fun w =>
    Build_Outcome tt
      [EvAlert alerterType alerterName alertmessage alertersConfig]
      (alertFn env alerterType alerterName alertmessage alertersConfig w).

(** The loop over [node.Status.Conditions] of [checkNode].  A [return]
    inside the loop ends the scan: the branch that alerts has no
    recursive call. *)
Fixpoint scanConditions (alertSpec : types.NodeAlertSpec)
    (tickertime nowSeconds : Z) (alertersConfig : Cfg)
    (conditions : list corev1.NodeCondition) : IO unit :=
  match conditions with
  | [] => ret tt
  | condition :: rest =>
    let transitiontimeDiff :=
      Int64.sub nowSeconds (corev1.LastTransitionTime condition) in
    let continue :=
      scanConditions alertSpec tickertime nowSeconds alertersConfig rest in
    let rs := types.ReportStatus alertSpec in
    if (corev1.Type_ condition =? "Ready")%string then
      if (transitiontimeDiff <? tickertime) && types.NodeReady rs then
        let alertmessage :=
          Sprint ["Node"; types.Name alertSpec;
                  "has changed ready status since last poll and may be restarting!"]%string in
        alert (types.AlerterType alertSpec) (types.AlerterName alertSpec)
              alertmessage alertersConfig
      else continue
    else if (corev1.Type_ condition =? "OutOfDisk")%string then
      if (transitiontimeDiff <? tickertime) && types.NodeOutOfDisk rs then
        let alertmessage :=
          Sprint ["Node"; types.Name alertSpec;
                  "has changed OutOfDisk status since last poll and may have observed disk space issues!"]%string in
        alert (types.AlerterType alertSpec) (types.AlerterName alertSpec)
              alertmessage alertersConfig
      else continue
    else if (corev1.Type_ condition =? "MemoryPressure")%string then
      if (transitiontimeDiff <? tickertime) && types.NodeMemoryPressure rs then
        let alertmessage :=
          Sprint ["Node"; types.Name alertSpec;
                  "has changed MemoryPressure status since last poll and may have observed memory pressure!"]%string in
        alert (types.AlerterType alertSpec) (types.AlerterName alertSpec)
              alertmessage alertersConfig
      else continue
    else if (corev1.Type_ condition =? "DiskPressure")%string then
      if (transitiontimeDiff <? tickertime) && types.NodeDiskPressure rs then
        let alertmessage :=
          Sprint ["Node"; types.Name alertSpec;
                  "has changed DiskPressure tatus since last poll and may have observed disk pressure!"]%string in
        alert (types.AlerterType alertSpec) (types.AlerterName alertSpec)
              alertmessage alertersConfig
      else continue
    else continue
  end.

Definition checkNode (node : corev1.Node) (alertSpec : types.NodeAlertSpec)
    (tickertime : Z) (alertersConfig : Cfg) : IO unit :=
  nowSeconds <- now ;;
  let statusCreatedSecondsDiff :=
    Int64.sub nowSeconds
      (metav1.CreationTimestamp (corev1.ObjectMeta node)) in
  if statusCreatedSecondsDiff
       >? types.PendingThreshold (types.ReportStatus alertSpec) then
    scanConditions alertSpec tickertime nowSeconds alertersConfig
      (corev1.Conditions (corev1.Status node))
  else ret tt.

(** The loop over [nodes.Items] of [PollNode]; [Some] is the early
    [return] of an error, [None] is falling through to [return nil]. *)
Fixpoint pollItems (alertSpec : types.NodeAlertSpec) (tickertime : Z)
    (alertersConfig : Cfg) (items : list corev1.Node)
  : IO (option PollErr) :=
  match items with
  | [] => ret None
  | nodedata :: rest =>
    r <- Get (corev1.GetName nodedata) ;;
    match r with
    | inr nodeerr =>
      ret (Some {| Message :=
        Sprint ["Unable to get node ";
                metav1.Name (corev1.ObjectMeta nodedata);
                ": "; nodeerr]%string |})
    | inl node =>
      checkNode node alertSpec tickertime alertersConfig ;;;
      pollItems alertSpec tickertime alertersConfig rest
    end
  end.

(** Lines 37-39: a zero threshold becomes 10. *)
Definition defaultThreshold (alertSpec : types.NodeAlertSpec)
  : types.NodeAlertSpec :=
  if types.PendingThreshold (types.ReportStatus alertSpec) =? 0
  then types.setPendingThreshold alertSpec 10
  else alertSpec.

Definition PollNode (alertSpec : types.NodeAlertSpec) (tickertime : Z)
    (alertersConfig : Cfg) : IO (option PollErr) :=
  let alertSpec := defaultThreshold alertSpec in
  if negb (types.Name alertSpec =? "*")%string then
    r <- Get (types.Name alertSpec) ;;
    match r with
    | inr nodeerr =>
      ret (Some {| Message :=
        Sprint ["Unable to get node "; types.Name alertSpec;
                ": "; nodeerr]%string |})
    | inl node =>
      checkNode node alertSpec tickertime alertersConfig ;;;
      ret None
    end
  else
    let listopts :=
      {| metav1.LabelSelector := types.NodeFilter alertSpec;
         metav1.IncludeUninitialized := false;
         metav1.Watch := false;
         metav1.TimeoutSeconds := Some (timeout env) |} in
    r <- List_ listopts ;;
    match r with
    | inr nodeserr =>
      ret (Some {| Message :=
        Sprint ["Unable to get nodes: "; nodeserr]%string |})
    | inl nodes =>
      (if Int32.wrap (Z.of_nat (List.length (corev1.Items nodes)))
            <? types.MinNodes (types.ReportStatus alertSpec)
       then
         let alertmessage :=
           Sprint ["Node count with filter"; types.NodeFilter alertSpec;
                   "in under minimum specification!"]%string in
         alert (types.AlerterType alertSpec) (types.AlerterName alertSpec)
               alertmessage alertersConfig
       else ret tt) ;;;
      pollItems alertSpec tickertime alertersConfig (corev1.Items nodes)
    end.

End Poll.

Arguments ret {W Cfg A} a w.
Arguments bind {W Cfg A B} m k w.

(** ** The evaluator in the words of the specification

    The specification describes the scan of [checkNode] as: the first
    condition, in the reported order, whose type is one of four recognized
    kinds, whose transition is fresher than the tick interval and whose
    opt-in flag is set, fires one alert with a message of its kind.  The
    definitions below say that, without any loop; they are compared with
    [scanConditions] and [checkNode] further down. *)

Inductive ConditionKind : Type :=
| Ready
| OutOfDisk
| MemoryPressure
| DiskPressure.

Definition kindOf (conditionType : string) : option ConditionKind :=
  if (conditionType =? "Ready")%string then Some Ready
  else if (conditionType =? "OutOfDisk")%string then Some OutOfDisk
  else if (conditionType =? "MemoryPressure")%string then Some MemoryPressure
  else if (conditionType =? "DiskPressure")%string then Some DiskPressure
  else None.

Definition optIn (k : ConditionKind) (rs : types.NodeReportStatusSpec) : bool :=
  match k with
  | Ready => types.NodeReady rs
  | OutOfDisk => types.NodeOutOfDisk rs
  | MemoryPressure => types.NodeMemoryPressure rs
  | DiskPressure => types.NodeDiskPressure rs
  end.

Definition kindText (k : ConditionKind) : string :=
  match k with
  | Ready =>
    "has changed ready status since last poll and may be restarting!"
  | OutOfDisk =>
    "has changed OutOfDisk status since last poll and may have observed disk space issues!"
  | MemoryPressure =>
    "has changed MemoryPressure status since last poll and may have observed memory pressure!"
  | DiskPressure =>
    "has changed DiskPressure tatus since last poll and may have observed disk pressure!"
  end.

(** The message of a node-level alert of kind [k] under a spec named
    [specName]. *)
Definition alertMessage (specName : string) (k : ConditionKind) : string :=
  ("Node" ++ specName ++ kindText k)%string.

(** The message of the minimum-count alert. *)
Definition underMinimumMessage (nodeFilter : string) : string :=
  ("Node count with filter" ++ nodeFilter
     ++ "in under minimum specification!")%string.

(** The text carried by the error of a failed fetch by name. *)
Definition getErrorMessage (name cause : string) : string :=
  ("Unable to get node " ++ name ++ ": " ++ cause)%string.

(** [now - node.creationTimestamp], as the code computes it. *)
Definition age (nowSeconds : Z) (node : corev1.Node) : Z :=
  Int64.sub nowSeconds (metav1.CreationTimestamp (corev1.ObjectMeta node)).

(** [now - condition.lastTransitionTime], as the code computes it. *)
Definition sinceTransition (nowSeconds : Z) (c : corev1.NodeCondition) : Z :=
  Int64.sub nowSeconds (corev1.LastTransitionTime c).

Definition fresh (nowSeconds tickInterval : Z) (c : corev1.NodeCondition)
  : bool :=
  sinceTransition nowSeconds c <? tickInterval.

(** A condition fires when it is recognized, fresh and opted in. *)
Definition fires (alertSpec : types.NodeAlertSpec)
    (tickInterval nowSeconds : Z) (c : corev1.NodeCondition) : bool :=
  match kindOf (corev1.Type_ c) with
  | Some k =>
    fresh nowSeconds tickInterval c && optIn k (types.ReportStatus alertSpec)
  | None => false
  end.

(** The kind of the first condition that fires, if any does. *)
Definition firstFiring (alertSpec : types.NodeAlertSpec)
    (tickInterval nowSeconds : Z) (conditions : list corev1.NodeCondition)
  : option ConditionKind :=
  match find (fires alertSpec tickInterval nowSeconds) conditions with
  | Some c => kindOf (corev1.Type_ c)
  | None => None
  end.

(** The decision for one node: past the age gate, the first firing
    condition wins. *)
Definition nodeAlert (alertSpec : types.NodeAlertSpec)
    (tickInterval nowSeconds : Z) (node : corev1.Node)
  : option ConditionKind :=
  if age nowSeconds node
       >? types.PendingThreshold (types.ReportStatus alertSpec)
  then firstFiring alertSpec tickInterval nowSeconds
         (corev1.Conditions (corev1.Status node))
  else None.

(** The dispatch calls a decision amounts to: none, or one. *)
Definition alertEvents {Cfg : Type} (alertSpec : types.NodeAlertSpec)
    (alertersConfig : Cfg) (decision : option ConditionKind)
  : list (@Event Cfg) :=
  match decision with
  | Some k =>
    [EvAlert (types.AlerterType alertSpec) (types.AlerterName alertSpec)
             (alertMessage (types.Name alertSpec) k) alertersConfig]
  | None => []
  end.

(** The calls the specification allows for the node list of a filtered
    spec: each listed node is fetched by its name, then evaluated (one
    clock reading and the alert its decision amounts to), until the list
    ends or a fetch fails; a failed fetch is the last call and gives the
    error. *)
Inductive loopTrace {Cfg : Type} (alertSpec : types.NodeAlertSpec)
    (tickInterval : Z) (alertersConfig : Cfg)
  : list corev1.Node -> list (@Event Cfg) -> option PollErr -> Prop :=
| loopDone :
    loopTrace alertSpec tickInterval alertersConfig [] [] None
| loopFetchFailed nodedata rest cause :
    loopTrace alertSpec tickInterval alertersConfig (nodedata :: rest)
      [EvGet (corev1.GetName nodedata) (inr cause)]
      (Some {| Message :=
                 getErrorMessage (corev1.GetName nodedata) cause |})
| loopEvaluated nodedata rest node nowSeconds tr r :
    loopTrace alertSpec tickInterval alertersConfig rest tr r ->
    loopTrace alertSpec tickInterval alertersConfig (nodedata :: rest)
      (EvGet (corev1.GetName nodedata) (inl node)
         :: EvNow nowSeconds
         :: alertEvents alertSpec alertersConfig
              (nodeAlert alertSpec tickInterval nowSeconds node)
         ++ tr)
      r.

(** A node with other conditions, everything else unchanged. *)
Definition withConditions (node : corev1.Node)
    (conditions : list corev1.NodeCondition) : corev1.Node :=
  {| corev1.ObjectMeta := corev1.ObjectMeta node;
     corev1.Status := {| corev1.Conditions := conditions |} |}.

(** A node under another name, everything else unchanged. *)
Definition withName (node : corev1.Node) (name : string) : corev1.Node :=
  {| corev1.ObjectMeta :=
       {| metav1.Name := name;
          metav1.CreationTimestamp :=
            metav1.CreationTimestamp (corev1.ObjectMeta node) |};
     corev1.Status := corev1.Status node |}.

(** ** Sample clusters

    Small concrete environments on which the statements below are
    evaluated. *)

Module Sample.
Definition mkNode (name : string) (created : Z)
    (conditions : list corev1.NodeCondition) : corev1.Node :=
  {| corev1.ObjectMeta :=
       {| metav1.Name := name; metav1.CreationTimestamp := created |};
     corev1.Status := {| corev1.Conditions := conditions |} |}.

Definition mkCondition (type : string) (lastTransition : Z)
  : corev1.NodeCondition :=
  {| corev1.Type_ := type; corev1.LastTransitionTime := lastTransition |}.

Definition mkSpec (name filter : string) (minNodes : Z)
    (ready outOfDisk memory disk : bool) (threshold : Z)
  : types.NodeAlertSpec :=
  {| types.Name := name;
     types.AlerterType := "email";
     types.AlerterName := "ops";
     types.ReportStatus :=
       {| types.MinNodes := minNodes;
          types.NodeReady := ready;
          types.NodeOutOfDisk := outOfDisk;
          types.NodeMemoryPressure := memory;
          types.NodeDiskPressure := disk;
          types.PendingThreshold := threshold |};
     types.NodeFilter := filter |}.

Fixpoint lookup (name : string) (store : list corev1.Node)
  : corev1.Node + string :=
  match store with
  | [] => inr "not found"%string
  | n :: store' =>
    if (corev1.GetName n =? name)%string then inl n
    else lookup name store'
  end.

(** A cluster whose clock stands at [t], whose list call answers
    [listed] and whose fetch by name looks the node up in [store]; the
    world is the number of calls made so far, which no answer depends
    on. *)
Definition cluster (t : Z) (listed store : list corev1.Node)
  : Env nat unit :=
  {| timeNowUnix := fun w => (t, S w);
     nodesGet := fun name w => (lookup name store, S w);
     nodesList := fun _ w => (inl {| corev1.Items := listed |}, S w);
     alertFn := fun _ _ _ _ w => S w;
     timeout := 30 |}.

(** The same cluster without the call counter. *)
Definition plainCluster (t : Z) (listed store : list corev1.Node)
  : Env unit unit :=
  {| timeNowUnix := fun w => (t, w);
     nodesGet := fun name w => (lookup name store, w);
     nodesList := fun _ w => (inl {| corev1.Items := listed |}, w);
     alertFn := fun _ _ _ _ w => w;
     timeout := 30 |}.

(** The clock of the samples stands at second 1000. *)
Definition clock : Z := 1000.

Definition staleMemory : corev1.NodeCondition :=
  mkCondition "MemoryPressure" 100.
Definition freshReady : corev1.NodeCondition := mkCondition "Ready" 995.
Definition freshDisk : corev1.NodeCondition := mkCondition "DiskPressure" 999.

(** Old nodes: created at second 0. *)
Definition node1 : corev1.Node :=
  mkNode "node-1" 0 [staleMemory; freshReady; freshDisk].
Definition node2 : corev1.Node := mkNode "node-2" 0 [freshDisk; freshReady].
Definition nodeReadyOnly : corev1.Node := mkNode "node-5" 0 [freshReady].
Definition nodeDiskOnly : corev1.Node := mkNode "node-6" 0 [freshDisk].

(** A node that is exactly 10 seconds old. *)
Definition tenSecondsOld : corev1.Node := mkNode "node-3" 990 [freshReady].

(** A node created in the very second of the poll. *)
Definition newborn : corev1.Node := mkNode "node-4" 1000 [freshReady].

(** A node that was listed but is gone when fetched by name. *)
Definition vanished : corev1.Node := mkNode "node-9" 0 [freshReady].

Definition spec1 : types.NodeAlertSpec :=
  mkSpec "node-1" "" 0 true true true true 10.
Definition spec1NoReady : types.NodeAlertSpec :=
  mkSpec "node-1" "" 0 false true true true 10.
Definition specUnset : types.NodeAlertSpec :=
  mkSpec "node-1" "" 0 true true true true 0.
Definition specNegative : types.NodeAlertSpec :=
  mkSpec "node-4" "" 0 true true true true (-5).
Definition specGhost : types.NodeAlertSpec :=
  mkSpec "ghost" "" 0 true true true true 10.
Definition specWorkers : types.NodeAlertSpec :=
  mkSpec "*" "role=worker" 3 true true true true 10.
End Sample.

(** The list options [PollNode] builds for a filtered spec. *)
Definition filterListOptions {W Cfg : Type} (env : Env W Cfg)
    (alertSpec : types.NodeAlertSpec) : metav1.ListOptions :=
  {| metav1.LabelSelector := types.NodeFilter alertSpec;
     metav1.IncludeUninitialized := false;
     metav1.Watch := false;
     metav1.TimeoutSeconds := Some (timeout env) |}.

(** No fetch of the trace returned an error. *)
Definition noFetchFailed {Cfg : Type} (tr : list (@Event Cfg)) : bool :=
  forallb (fun e => negb (fetchFailed e)) tr.

(** ** Two environments that answer alike

    Two environments, possibly with different hidden state, answer alike
    from related worlds when every call returns the same value in both and
    leaves related worlds behind. *)

Record sameAnswers {W1 W2 Cfg : Type} (env1 : Env W1 Cfg) (env2 : Env W2 Cfg)
    (R : W1 -> W2 -> Prop) : Prop := {
  same_clock : forall w1 w2, R w1 w2 ->
    fst (timeNowUnix env1 w1) = fst (timeNowUnix env2 w2)
    /\ R (snd (timeNowUnix env1 w1)) (snd (timeNowUnix env2 w2));
  same_get : forall name w1 w2, R w1 w2 ->
    fst (nodesGet env1 name w1) = fst (nodesGet env2 name w2)
    /\ R (snd (nodesGet env1 name w1)) (snd (nodesGet env2 name w2));
  same_list : forall opts w1 w2, R w1 w2 ->
    fst (nodesList env1 opts w1) = fst (nodesList env2 opts w2)
    /\ R (snd (nodesList env1 opts w1)) (snd (nodesList env2 opts w2));
  same_alert : forall alerterType alerterName message cfg w1 w2, R w1 w2 ->
    R (alertFn env1 alerterType alerterName message cfg w1)
      (alertFn env2 alerterType alerterName message cfg w2);
  same_timeout : timeout env1 = timeout env2
}.

(** Two outcomes with the same value and the same calls, in related
    worlds. *)
Definition sameOutcome {W1 W2 Cfg A : Type} (R : W1 -> W2 -> Prop)
    (o1 : Outcome W1 Cfg A) (o2 : Outcome W2 Cfg A) : Prop :=
  value o1 = value o2 /\ events o1 = events o2 /\ R (world o1) (world o2).

(** ** Further vocabulary for traces and specs *)

(** The number of clock readings of a trace. *)
Fixpoint clockReads {Cfg : Type} (tr : list (@Event Cfg)) : nat :=
  match tr with
  | [] => 0%nat
  | EvNow _ :: tr' => S (clockReads tr')
  | _ :: tr' => clockReads tr'
  end.

(** The number of fetches by name of a trace that returned a node. *)
Fixpoint fetchedNodes {Cfg : Type} (tr : list (@Event Cfg)) : nat :=
  match tr with
  | [] => 0%nat
  | EvGet _ (inl _) :: tr' => S (fetchedNodes tr')
  | _ :: tr' => fetchedNodes tr'
  end.

(** A call that, if it is a dispatch, goes to the alerter the spec names,
    with the configuration the poll was given. *)
Definition routedTo {Cfg : Type} (alertSpec : types.NodeAlertSpec)
    (alertersConfig : Cfg) (e : @Event Cfg) : Prop :=
  match e with
  | EvAlert alerterType alerterName _ cfg =>
    alerterType = types.AlerterType alertSpec
    /\ alerterName = types.AlerterName alertSpec
    /\ cfg = alertersConfig
  | _ => True
  end.

(** The condition type is one of the four the scan knows. *)
Definition recognized (c : corev1.NodeCondition) : bool :=
  match kindOf (corev1.Type_ c) with
  | Some _ => true
  | None => false
  end.

(** A spec with another filter and another minimum count, everything else
    unchanged. *)
Definition withFilter (alertSpec : types.NodeAlertSpec) (nodeFilter : string)
    (minNodes : Z) : types.NodeAlertSpec :=
  let rs := types.ReportStatus alertSpec in
  {| types.Name := types.Name alertSpec;
     types.AlerterType := types.AlerterType alertSpec;
     types.AlerterName := types.AlerterName alertSpec;
     types.ReportStatus :=
       {| types.MinNodes := minNodes;
          types.NodeReady := types.NodeReady rs;
          types.NodeOutOfDisk := types.NodeOutOfDisk rs;
          types.NodeMemoryPressure := types.NodeMemoryPressure rs;
          types.NodeDiskPressure := types.NodeDiskPressure rs;
          types.PendingThreshold := types.PendingThreshold rs |};
     types.NodeFilter := nodeFilter |}.

(** The same collaborators, except that every successful answer of the
    list call is passed through [f] before [PollNode] sees it. *)
Definition relist {W Cfg : Type} (env : Env W Cfg)
    (f : corev1.NodeList -> corev1.NodeList) : Env W Cfg :=
  {| timeNowUnix := timeNowUnix env;
     nodesGet := nodesGet env;
     nodesList := fun opts w =>
       (match fst (nodesList env opts w) with
        | inl nodes => inl (f nodes)
        | inr nodeserr => inr nodeserr
        end,
        snd (nodesList env opts w));
     alertFn := alertFn env;
     timeout := timeout env |}.

Module MoreSamples.
(** A cluster whose list call fails. *)
Definition outage (t : Z) (store : list corev1.Node) : Env nat unit :=
  {| timeNowUnix := fun w => (t, S w);
     nodesGet := fun name w => (Sample.lookup name store, S w);
     nodesList := fun _ w => (inr "connection refused"%string, S w);
     alertFn := fun _ _ _ _ w => S w;
     timeout := 30 |}.

(** A list answer reduced to the names of its nodes. *)
Definition namesOnly (nodes : corev1.NodeList) : corev1.NodeList :=
  {| corev1.Items :=
       map (fun n => Sample.mkNode (corev1.GetName n) 0 [])
           (corev1.Items nodes) |}.

Definition specSilent : types.NodeAlertSpec :=
  Sample.mkSpec "*" "role=worker" 3 false false false false 10.

Definition unknownCondition : corev1.NodeCondition :=
  Sample.mkCondition "NetworkUnavailable" 999.

Definition nodeMixed : corev1.Node :=
  Sample.mkNode "node-7" 0
    [unknownCondition; Sample.staleMemory; Sample.freshDisk;
     Sample.freshReady].

Definition nodeStale : corev1.Node :=
  Sample.mkNode "node-8" 0
    [Sample.staleMemory; Sample.mkCondition "Ready" 500].
End MoreSamples.

(** ** Arithmetic of the machine integers *)

Lemma Int64_wrap_in_range (z : Z) : Int64.in_range z -> Int64.wrap z = z.
Proof.
  unfold Int64.in_range, Int64.wrap, Int64.min_signed, Int64.max_signed,
    Int64.modulus.
  intros H. rewrite Z.mod_small; lia.
Qed.

Lemma Int32_wrap_in_range (z : Z) : Int32.in_range z -> Int32.wrap z = z.
Proof.
  unfold Int32.in_range, Int32.wrap, Int32.min_signed, Int32.max_signed,
    Int32.modulus.
  intros H. rewrite Z.mod_small; lia.
Qed.

(** ** Traces *)

Section TraceFacts.
Context {Cfg : Type}.
Implicit Types tr : list (@Event Cfg).

Lemma dispatches_app tr1 tr2 :
  dispatches (tr1 ++ tr2) = dispatches tr1 ++ dispatches tr2.
Proof. apply filter_app. Qed.

Lemma messages_app tr1 tr2 :
  messages (tr1 ++ tr2) = messages tr1 ++ messages tr2.
Proof.
  induction tr1 as [|e tr1 IH]; simpl; [reflexivity|].
  destruct e; simpl; rewrite IH; reflexivity.
Qed.

Lemma getNames_app tr1 tr2 :
  getNames (tr1 ++ tr2) = getNames tr1 ++ getNames tr2.
Proof.
  induction tr1 as [|e tr1 IH]; simpl; [reflexivity|].
  destruct e; simpl; rewrite IH; reflexivity.
Qed.

Lemma alertEvents_length (alertSpec : types.NodeAlertSpec) (cfg : Cfg) d :
  (List.length (alertEvents alertSpec cfg d) <= 1)%nat.
Proof. destruct d; simpl; lia. Qed.

Lemma dispatches_alertEvents (alertSpec : types.NodeAlertSpec) (cfg : Cfg) d :
  dispatches (alertEvents alertSpec cfg d) = alertEvents alertSpec cfg d.
Proof. destruct d; reflexivity. Qed.

Lemma fetches_alertEvents (alertSpec : types.NodeAlertSpec) (cfg : Cfg) d :
  fetches (alertEvents alertSpec cfg d) = [].
Proof. destruct d; reflexivity. Qed.

Lemma getNames_alertEvents (alertSpec : types.NodeAlertSpec) (cfg : Cfg) d :
  getNames (alertEvents alertSpec cfg d) = [].
Proof. destruct d; reflexivity. Qed.

Lemma fetchFailed_alertEvents (alertSpec : types.NodeAlertSpec) (cfg : Cfg) d :
  forallb (fun e => negb (fetchFailed e)) (alertEvents alertSpec cfg d) = true.
Proof. destruct d; reflexivity. Qed.
End TraceFacts.

(** ** The scan of the conditions *)

Lemma kindOf_Ready (t : string) : t = "Ready"%string -> kindOf t = Some Ready.
Proof. intros ->. reflexivity. Qed.

Lemma find_first_firing {A : Type} (p : A -> bool) (pre post : list A) (c : A) :
  forallb (fun x => negb (p x)) pre = true ->
  find p (pre ++ c :: post) = find p (c :: post).
Proof.
  induction pre as [|x pre IH]; simpl; [reflexivity|].
  intros H. apply andb_true_iff in H. destruct H as [Hx Hpre].
  apply negb_true_iff in Hx. rewrite Hx. auto.
Qed.

Lemma firstFiring_skip alertSpec tick t pre rest :
  forallb (fun x => negb (fires alertSpec tick t x)) pre = true ->
  firstFiring alertSpec tick t (pre ++ rest) = firstFiring alertSpec tick t rest.
Proof.
  unfold firstFiring. destruct rest as [|c post].
  - intros H. rewrite app_nil_r.
    induction pre as [|x pre IH]; simpl; [reflexivity|].
    simpl in H. apply andb_true_iff in H. destruct H as [Hx Hpre].
    apply negb_true_iff in Hx. rewrite Hx. auto.
  - intros H. rewrite find_first_firing by exact H. reflexivity.
Qed.

Lemma firstFiring_head alertSpec tick t c post k :
  fires alertSpec tick t c = true ->
  kindOf (corev1.Type_ c) = Some k ->
  firstFiring alertSpec tick t (c :: post) = Some k.
Proof.
  intros Hf Hk. unfold firstFiring. simpl. rewrite Hf. exact Hk.
Qed.

Lemma firstFiring_cons alertSpec tick t c rest :
  firstFiring alertSpec tick t (c :: rest) =
  if fires alertSpec tick t c then kindOf (corev1.Type_ c)
  else firstFiring alertSpec tick t rest.
Proof.
  unfold firstFiring. simpl.
  destruct (fires alertSpec tick t c); reflexivity.
Qed.

Section ScanFacts.
Context {W Cfg : Type}.
Variable env : Env W Cfg.

(** The loop of [checkNode] decides as [firstFiring] says. *)
Lemma scanConditions_firstFiring alertSpec tick t (cfg : Cfg) conditions w :
  scanConditions env alertSpec tick t cfg conditions w =
  match firstFiring alertSpec tick t conditions with
  | Some k =>
    alert env (types.AlerterType alertSpec) (types.AlerterName alertSpec)
          (alertMessage (types.Name alertSpec) k) cfg w
  | None => ret tt w
  end.
Proof.
  induction conditions as [|c rest IH]; [reflexivity|].
  rewrite firstFiring_cons. cbn [scanConditions].
  unfold fires, kindOf, fresh, sinceTransition.
  destruct (corev1.Type_ c =? "Ready")%string.
  { cbn [optIn].
    destruct ((Int64.sub t (corev1.LastTransitionTime c) <? tick)
              && types.NodeReady (types.ReportStatus alertSpec));
      [reflexivity | exact IH]. }
  destruct (corev1.Type_ c =? "OutOfDisk")%string.
  { cbn [optIn].
    destruct ((Int64.sub t (corev1.LastTransitionTime c) <? tick)
              && types.NodeOutOfDisk (types.ReportStatus alertSpec));
      [reflexivity | exact IH]. }
  destruct (corev1.Type_ c =? "MemoryPressure")%string.
  { cbn [optIn].
    destruct ((Int64.sub t (corev1.LastTransitionTime c) <? tick)
              && types.NodeMemoryPressure (types.ReportStatus alertSpec));
      [reflexivity | exact IH]. }
  destruct (corev1.Type_ c =? "DiskPressure")%string.
  { cbn [optIn].
    destruct ((Int64.sub t (corev1.LastTransitionTime c) <? tick)
              && types.NodeDiskPressure (types.ReportStatus alertSpec));
      [reflexivity | exact IH]. }
  exact IH.
Qed.
End ScanFacts.

Lemma fires_iff alertSpec tick t c :
  fires alertSpec tick t c = true <->
  exists k, kindOf (corev1.Type_ c) = Some k
            /\ sinceTransition t c < tick
            /\ optIn k (types.ReportStatus alertSpec) = true.
Proof.
  unfold fires, fresh. split.
  - destruct (kindOf (corev1.Type_ c)) as [k|]; [|discriminate].
    intros H. apply andb_true_iff in H. destruct H as [Hlt Hopt].
    exists k. repeat split; [apply Z.ltb_lt; exact Hlt | exact Hopt].
  - intros (k & -> & Hlt & Hopt).
    apply andb_true_iff. split; [apply Z.ltb_lt; exact Hlt | exact Hopt].
Qed.

(** When the difference fits an [int64], the code computes the plain
    difference. *)
Lemma age_exact t node :
  Int64.in_range (t - metav1.CreationTimestamp (corev1.ObjectMeta node)) ->
  age t node = t - metav1.CreationTimestamp (corev1.ObjectMeta node).
Proof. apply Int64_wrap_in_range. Qed.

Lemma sinceTransition_exact t c :
  Int64.in_range (t - corev1.LastTransitionTime c) ->
  sinceTransition t c = t - corev1.LastTransitionTime c.
Proof. apply Int64_wrap_in_range. Qed.

(** A transition [d] seconds before now, for a [d] that fits an [int64],
    is seen as [d] seconds old. *)
Lemma sinceTransition_before t c d :
  Int64.in_range d ->
  corev1.LastTransitionTime c = t - d ->
  sinceTransition t c = d.
Proof.
  intros Hd Hc. rewrite sinceTransition_exact; rewrite Hc.
  - lia.
  - replace (t - (t - d)) with d by lia. exact Hd.
Qed.

(** ** One node *)

Section CheckNodeFacts.
Context {W Cfg : Type}.
Variable env : Env W Cfg.

(** [checkNode] reads the clock once and then does what [nodeAlert]
    decides. *)
Lemma checkNode_outcome node alertSpec tick (cfg : Cfg) w :
  checkNode env node alertSpec tick cfg w =
  let t := fst (timeNowUnix env w) in
  let w1 := snd (timeNowUnix env w) in
  match nodeAlert alertSpec tick t node with
  | Some k =>
    Build_Outcome tt
      [EvNow t;
       EvAlert (types.AlerterType alertSpec) (types.AlerterName alertSpec)
               (alertMessage (types.Name alertSpec) k) cfg]
      (alertFn env (types.AlerterType alertSpec)
               (types.AlerterName alertSpec)
               (alertMessage (types.Name alertSpec) k) cfg w1)
  | None => Build_Outcome tt [EvNow t] w1
  end.
Proof.
  unfold checkNode, bind, now, nodeAlert, age.
  destruct (timeNowUnix env w) as [t w1]. cbn [fst snd value events world].
  destruct (Int64.sub t (metav1.CreationTimestamp (corev1.ObjectMeta node))
              >? types.PendingThreshold (types.ReportStatus alertSpec)).
  - rewrite scanConditions_firstFiring.
    destruct (firstFiring alertSpec tick t
                (corev1.Conditions (corev1.Status node)));
      reflexivity.
  - reflexivity.
Qed.

Lemma checkNode_events node alertSpec tick (cfg : Cfg) w :
  events (checkNode env node alertSpec tick cfg w) =
  EvNow (fst (timeNowUnix env w))
    :: alertEvents alertSpec cfg
         (nodeAlert alertSpec tick (fst (timeNowUnix env w)) node).
Proof.
  rewrite checkNode_outcome. cbv zeta.
  destruct (nodeAlert alertSpec tick (fst (timeNowUnix env w)) node);
    reflexivity.
Qed.

Lemma checkNode_dispatches node alertSpec tick (cfg : Cfg) w :
  dispatches (events (checkNode env node alertSpec tick cfg w)) =
  alertEvents alertSpec cfg
    (nodeAlert alertSpec tick (fst (timeNowUnix env w)) node).
Proof.
  rewrite checkNode_events. unfold dispatches. cbn [filter isAlert].
  apply dispatches_alertEvents.
Qed.

(** The outcome depends on the node only through what [nodeAlert] sees. *)
Lemma checkNode_same_decision node node' alertSpec tick (cfg : Cfg) w :
  nodeAlert alertSpec tick (fst (timeNowUnix env w)) node
  = nodeAlert alertSpec tick (fst (timeNowUnix env w)) node' ->
  checkNode env node alertSpec tick cfg w
  = checkNode env node' alertSpec tick cfg w.
Proof.
  intros H. rewrite !checkNode_outcome. cbv zeta. rewrite H. reflexivity.
Qed.

Lemma nodeAlert_past_gate alertSpec tick t node :
  age t node > types.PendingThreshold (types.ReportStatus alertSpec) ->
  nodeAlert alertSpec tick t node
  = firstFiring alertSpec tick t (corev1.Conditions (corev1.Status node)).
Proof.
  intros H. unfold nodeAlert.
  destruct (Z.gtb_spec (age t node)
              (types.PendingThreshold (types.ReportStatus alertSpec)));
    [reflexivity | lia].
Qed.

Lemma nodeAlert_gated alertSpec tick t node :
  age t node <= types.PendingThreshold (types.ReportStatus alertSpec) ->
  nodeAlert alertSpec tick t node = None.
Proof.
  intros H. unfold nodeAlert.
  destruct (Z.gtb_spec (age t node)
              (types.PendingThreshold (types.ReportStatus alertSpec)));
    [lia | reflexivity].
Qed.

Lemma age_withConditions t node conditions :
  age t (withConditions node conditions) = age t node.
Proof. reflexivity. Qed.

Lemma defaultThreshold_ge alertSpec :
  types.PendingThreshold (types.ReportStatus alertSpec)
  <= types.PendingThreshold
       (types.ReportStatus (defaultThreshold alertSpec)).
Proof.
  unfold defaultThreshold.
  destruct (Z.eqb_spec
              (types.PendingThreshold (types.ReportStatus alertSpec)) 0)
    as [E|E]; cbn; lia.
Qed.

(** C2.  A node whose age is at most [pendingThreshold] gets no dispatch
    call, whatever its conditions are; this holds for the threshold of the
    spec as [checkNode] receives it and for the threshold after
    [PollNode] has put the default in. *)
Theorem checkNode_young_node_no_dispatch
    node alertSpec tick (cfg : Cfg) w :
  age (fst (timeNowUnix env w)) node
    <= types.PendingThreshold (types.ReportStatus alertSpec) ->
  dispatches (events (checkNode env node alertSpec tick cfg w)) = []
  /\ dispatches
       (events (checkNode env node (defaultThreshold alertSpec) tick cfg w))
     = [].
Proof.
  intros Hage. split.
  - rewrite checkNode_dispatches, nodeAlert_gated by exact Hage.
    reflexivity.
  - rewrite checkNode_dispatches, nodeAlert_gated; [reflexivity|].
    pose proof (defaultThreshold_ge alertSpec). lia.
Qed.

(** C6.  Evaluating a node makes at most one dispatch call: the one of
    the first condition, in the reported order, that is recognized, fresh
    and opted in; the conditions after that one are not looked at, so
    replacing them changes nothing. *)
Theorem checkNode_at_most_one_dispatch
    node alertSpec tick (cfg : Cfg) w :
  let t := fst (timeNowUnix env w) in
  let out := checkNode env node alertSpec tick cfg w in
  (List.length (dispatches (events out)) <= 1)%nat
  /\ dispatches (events out)
     = alertEvents alertSpec cfg (nodeAlert alertSpec tick t node)
  /\ (forall pre c post k,
        corev1.Conditions (corev1.Status node) = pre ++ c :: post ->
        age t node > types.PendingThreshold (types.ReportStatus alertSpec) ->
        forallb (fun x => negb (fires alertSpec tick t x)) pre = true ->
        kindOf (corev1.Type_ c) = Some k ->
        sinceTransition t c < tick ->
        optIn k (types.ReportStatus alertSpec) = true ->
        dispatches (events out)
        = [EvAlert (types.AlerterType alertSpec)
                   (types.AlerterName alertSpec)
                   (alertMessage (types.Name alertSpec) k) cfg]
        /\ forall post',
             checkNode env (withConditions node (pre ++ c :: post'))
                       alertSpec tick cfg w
             = out).
Proof.
  intros t out. subst out. split; [|split].
  - rewrite checkNode_dispatches. apply alertEvents_length.
  - apply checkNode_dispatches.
  - intros pre c post k Hconds Hage Hpre Hk Hfresh Hopt.
    assert (Hfires : fires alertSpec tick t c = true).
    { apply fires_iff. exists k. auto. }
    assert (Hdec : forall post',
               firstFiring alertSpec tick t (pre ++ c :: post') = Some k).
    { intros post'. rewrite firstFiring_skip by exact Hpre.
      apply firstFiring_head; assumption. }
    split.
    + rewrite checkNode_dispatches. fold t.
      rewrite nodeAlert_past_gate by exact Hage.
      rewrite Hconds, Hdec. reflexivity.
    + intros post'. apply checkNode_same_decision. fold t.
      rewrite !nodeAlert_past_gate
        by (try rewrite age_withConditions; exact Hage).
      rewrite Hconds. cbn [withConditions corev1.Conditions corev1.Status].
      rewrite !Hdec. reflexivity.
Qed.

(** C1, amended.  For a node whose age is strictly above
    [pendingThreshold], with a [Ready] condition whose last transition is
    5 seconds before now and before which no condition of the list fires,
    with [tickInterval = 10] and [nodeReady] set: the evaluation makes
    exactly one dispatch call, with the ready-status message, and stops
    there, whatever conditions follow. *)
Theorem checkNode_ready_alert node alertSpec (cfg : Cfg) w pre c post :
  let t := fst (timeNowUnix env w) in
  age t node > types.PendingThreshold (types.ReportStatus alertSpec) ->
  corev1.Conditions (corev1.Status node) = pre ++ c :: post ->
  forallb (fun x => negb (fires alertSpec 10 t x)) pre = true ->
  corev1.Type_ c = "Ready"%string ->
  sinceTransition t c = 5 ->
  types.NodeReady (types.ReportStatus alertSpec) = true ->
  dispatches (events (checkNode env node alertSpec 10 cfg w))
  = [EvAlert (types.AlerterType alertSpec) (types.AlerterName alertSpec)
             ("Node" ++ types.Name alertSpec
                ++ "has changed ready status since last poll and may be restarting!")
             cfg]
  /\ forall post',
       checkNode env (withConditions node (pre ++ c :: post'))
                 alertSpec 10 cfg w
       = checkNode env node alertSpec 10 cfg w.
Proof.
  intros t Hage Hconds Hpre Htype Hsince Hready.
  assert (Hfires : fires alertSpec 10 t c = true).
  { apply fires_iff. exists Ready.
    rewrite (kindOf_Ready _ Htype), Hsince. cbn [optIn].
    split; [reflexivity | split; [lia | exact Hready]]. }
  assert (Hdec : forall post',
             firstFiring alertSpec 10 t (pre ++ c :: post') = Some Ready).
  { intros post'. rewrite firstFiring_skip by exact Hpre.
    apply firstFiring_head; [exact Hfires | apply kindOf_Ready, Htype]. }
  split.
  - rewrite checkNode_dispatches. fold t.
    rewrite nodeAlert_past_gate by exact Hage.
    rewrite Hconds, Hdec. reflexivity.
  - intros post'. apply checkNode_same_decision. fold t.
    rewrite !nodeAlert_past_gate
      by (try rewrite age_withConditions; exact Hage).
    rewrite Hconds. cbn [withConditions corev1.Conditions corev1.Status].
    rewrite !Hdec. reflexivity.
Qed.

(** C7.  Past the age gate, a recognized and fresh condition whose
    opt-in flag is off makes no dispatch call, and the scan goes on with
    the conditions after it: the node is evaluated as if its list started
    right after that condition. *)
Theorem checkNode_opted_out_condition_skipped
    node alertSpec tick (cfg : Cfg) w pre c post k :
  let t := fst (timeNowUnix env w) in
  age t node > types.PendingThreshold (types.ReportStatus alertSpec) ->
  corev1.Conditions (corev1.Status node) = pre ++ c :: post ->
  forallb (fun x => negb (fires alertSpec tick t x)) pre = true ->
  kindOf (corev1.Type_ c) = Some k ->
  sinceTransition t c < tick ->
  optIn k (types.ReportStatus alertSpec) = false ->
  (forall w', scanConditions env alertSpec tick t cfg (c :: post) w'
              = scanConditions env alertSpec tick t cfg post w')
  /\ checkNode env node alertSpec tick cfg w
     = checkNode env (withConditions node post) alertSpec tick cfg w.
Proof.
  intros t Hage Hconds Hpre Hk Hfresh Hopt.
  assert (Hc : fires alertSpec tick t c = false).
  { unfold fires. rewrite Hk, Hopt. apply andb_false_r. }
  split.
  - intros w'. rewrite !scanConditions_firstFiring, firstFiring_cons, Hc.
    reflexivity.
  - apply checkNode_same_decision. fold t.
    rewrite !nodeAlert_past_gate
      by (try rewrite age_withConditions; exact Hage).
    rewrite Hconds. cbn [withConditions corev1.Conditions corev1.Status].
    rewrite firstFiring_skip by exact Hpre.
    rewrite firstFiring_cons, Hc. reflexivity.
Qed.
End CheckNodeFacts.

(** ** The loop over the listed nodes *)

Section LoopTraceFacts.
Context {Cfg : Type}.
Variable alertSpec : types.NodeAlertSpec.
Variable tick : Z.
Variable cfg : Cfg.

Lemma loopTrace_nil_iff items tr r :
  loopTrace alertSpec tick cfg items tr r ->
  (r = None <-> noFetchFailed tr = true).
Proof.
  unfold noFetchFailed.
  induction 1 as [|nodedata rest cause|nodedata rest node t tr r H IH].
  - split; reflexivity.
  - split; discriminate.
  - cbn [forallb fetchFailed negb andb].
    rewrite forallb_app, fetchFailed_alertEvents. exact IH.
Qed.

Lemma loopTrace_all_fetched items tr :
  loopTrace alertSpec tick cfg items tr None ->
  getNames tr = map corev1.GetName items.
Proof.
  intros H. remember None as r eqn:Hr.
  induction H as [|nodedata rest cause|nodedata rest node t tr r H IH].
  - reflexivity.
  - discriminate.
  - cbn [getNames map]. rewrite getNames_app, getNames_alertEvents.
    cbn [app]. f_equal. exact (IH Hr).
Qed.

(** An error comes from the fetch of one listed node; that fetch is the
    last call, and the names fetched before it are those of the nodes
    listed before it. *)
Lemma loopTrace_error items tr err :
  loopTrace alertSpec tick cfg items tr (Some err) ->
  exists pre nodedata post cause tr',
    items = pre ++ nodedata :: post
    /\ tr = tr' ++ [EvGet (corev1.GetName nodedata) (inr cause)]
    /\ getNames tr' = map corev1.GetName pre
    /\ noFetchFailed tr' = true
    /\ err = {| Message :=
                  getErrorMessage (corev1.GetName nodedata) cause |}.
Proof.
  intros H. remember (Some err) as r eqn:Hr.
  induction H as [|nodedata rest cause|nodedata rest node t tr r H IH].
  - discriminate.
  - exists [], nodedata, rest, cause, [].
    injection Hr as <-. repeat split.
  - destruct (IH Hr) as (pre & nd & post & cause & tr' & -> & -> & Hn & Hok & ->).
    exists (nodedata :: pre), nd, post, cause,
      (EvGet (corev1.GetName nodedata) (inl node) :: EvNow t
         :: alertEvents alertSpec cfg (nodeAlert alertSpec tick t node)
         ++ tr').
    repeat split.
    + cbn [app]. rewrite app_assoc. reflexivity.
    + cbn [getNames map]. rewrite getNames_app, getNames_alertEvents, Hn.
      reflexivity.
    + unfold noFetchFailed in *.
      cbn [forallb fetchFailed negb andb].
      rewrite forallb_app, fetchFailed_alertEvents. exact Hok.
Qed.

Lemma loopTrace_messages items tr r :
  loopTrace alertSpec tick cfg items tr r ->
  forall m, In m (messages tr) ->
            exists k, m = alertMessage (types.Name alertSpec) k.
Proof.
  induction 1 as [|nodedata rest cause|nodedata rest node t tr r H IH];
    intros m Hin.
  - destruct Hin.
  - destruct Hin.
  - cbn [messages] in Hin. rewrite messages_app in Hin.
    apply in_app_or in Hin. destruct Hin as [Hin|Hin]; [|exact (IH m Hin)].
    destruct (nodeAlert alertSpec tick t node) as [k|]; cbn in Hin.
    + destruct Hin as [<-|[]]. exists k. reflexivity.
    + destruct Hin.
Qed.

Lemma loopTrace_dispatch_bound items tr r :
  loopTrace alertSpec tick cfg items tr r ->
  (List.length (dispatches tr) <= List.length items)%nat.
Proof.
  induction 1 as [|nodedata rest cause|nodedata rest node t tr r H IH].
  - cbn. lia.
  - cbn. lia.
  - unfold dispatches in *. cbn [filter isAlert].
    rewrite filter_app, length_app.
    pose proof (alertEvents_length alertSpec cfg
                  (nodeAlert alertSpec tick t node)) as Hle.
    fold (dispatches (alertEvents alertSpec cfg
                        (nodeAlert alertSpec tick t node))).
    rewrite dispatches_alertEvents. cbn [List.length]. lia.
Qed.
End LoopTraceFacts.

Lemma underMinimum_not_node_alert (nodeFilter : string) (k : ConditionKind) :
  underMinimumMessage nodeFilter <> alertMessage "*" k.
Proof.
  unfold underMinimumMessage, alertMessage. cbn [append].
  intros H. discriminate H.
Qed.

(** ** The poll *)

Lemma defaultThreshold_fields alertSpec :
  types.Name (defaultThreshold alertSpec) = types.Name alertSpec
  /\ types.NodeFilter (defaultThreshold alertSpec) = types.NodeFilter alertSpec
  /\ types.AlerterType (defaultThreshold alertSpec)
     = types.AlerterType alertSpec
  /\ types.AlerterName (defaultThreshold alertSpec)
     = types.AlerterName alertSpec
  /\ types.MinNodes (types.ReportStatus (defaultThreshold alertSpec))
     = types.MinNodes (types.ReportStatus alertSpec).
Proof.
  unfold defaultThreshold.
  destruct (types.PendingThreshold (types.ReportStatus alertSpec) =? 0);
    repeat split.
Qed.

Lemma defaultThreshold_zero alertSpec :
  types.PendingThreshold (types.ReportStatus alertSpec) = 0 ->
  defaultThreshold alertSpec = types.setPendingThreshold alertSpec 10.
Proof. intros H. unfold defaultThreshold. rewrite H. reflexivity. Qed.

Lemma defaultThreshold_nonzero alertSpec :
  types.PendingThreshold (types.ReportStatus alertSpec) <> 0 ->
  defaultThreshold alertSpec = alertSpec.
Proof.
  intros H. unfold defaultThreshold.
  destruct (Z.eqb_spec
              (types.PendingThreshold (types.ReportStatus alertSpec)) 0);
    [contradiction | reflexivity].
Qed.

Section PollNodeFacts.
Context {W Cfg : Type}.
Variable env : Env W Cfg.

(** The loop of [PollNode] makes the calls [loopTrace] allows. *)
Lemma pollItems_loopTrace alertSpec tick (cfg : Cfg) items :
  forall w,
    loopTrace alertSpec tick cfg items
      (events (pollItems env alertSpec tick cfg items w))
      (value (pollItems env alertSpec tick cfg items w)).
Proof.
  induction items as [|nodedata rest IH]; intros w.
  - constructor.
  - cbn [pollItems]. unfold bind, Get.
    destruct (nodesGet env (corev1.GetName nodedata) w) as [[node|cause] w1];
      cbn [value events world app].
    + rewrite checkNode_events. cbn [app].
      apply loopEvaluated, IH.
    + apply loopFetchFailed.
Qed.

(** A poll under a literal name: one fetch by name, then the evaluation
    of the node fetched. *)
Lemma PollNode_named alertSpec tick (cfg : Cfg) w :
  types.Name alertSpec <> "*"%string ->
  PollNode env alertSpec tick cfg w =
  let r := fst (nodesGet env (types.Name alertSpec) w) in
  let w1 := snd (nodesGet env (types.Name alertSpec) w) in
  match r with
  | inr cause =>
    Build_Outcome
      (Some {| Message := getErrorMessage (types.Name alertSpec) cause |})
      [EvGet (types.Name alertSpec) r] w1
  | inl node =>
    let o := checkNode env node (defaultThreshold alertSpec) tick cfg w1 in
    Build_Outcome None
      (EvGet (types.Name alertSpec) r :: events o) (world o)
  end.
Proof.
  intros Hname. unfold PollNode.
  destruct (defaultThreshold_fields alertSpec) as (-> & _).
  destruct (String.eqb_spec (types.Name alertSpec) "*") as [E|_];
    [contradiction|].
  cbn [negb]. unfold bind, Get.
  destruct (nodesGet env (types.Name alertSpec) w) as [[node|cause] w1];
    cbn [value events world fst snd app ret].
  - rewrite app_nil_r. reflexivity.
  - reflexivity.
Qed.

(** A poll under the wildcard name, when the list call succeeds: the
    minimum-count alert if the count is short, then the loop. *)
Lemma PollNode_filtered alertSpec tick (cfg : Cfg) w nodes :
  types.Name alertSpec = "*"%string ->
  fst (nodesList env (filterListOptions env alertSpec) w) = inl nodes ->
  PollNode env alertSpec tick cfg w =
  let opts := filterListOptions env alertSpec in
  let w1 := snd (nodesList env opts w) in
  let short :=
    Int32.wrap (Z.of_nat (List.length (corev1.Items nodes)))
      <? types.MinNodes (types.ReportStatus alertSpec) in
  let w2 :=
    if short
    then alertFn env (types.AlerterType alertSpec)
                 (types.AlerterName alertSpec)
                 (underMinimumMessage (types.NodeFilter alertSpec)) cfg w1
    else w1 in
  let o := pollItems env (defaultThreshold alertSpec) tick cfg
             (corev1.Items nodes) w2 in
  Build_Outcome (value o)
    (EvList opts (inl nodes)
       :: (if short
           then [EvAlert (types.AlerterType alertSpec)
                         (types.AlerterName alertSpec)
                         (underMinimumMessage (types.NodeFilter alertSpec))
                         cfg]
           else [])
       ++ events o)
    (world o).
Proof.
  intros Hname Hlist. unfold PollNode.
  destruct (defaultThreshold_fields alertSpec) as (-> & -> & -> & -> & ->).
  rewrite Hname. cbn [String.eqb Ascii.eqb Bool.eqb negb].
  fold (filterListOptions env alertSpec). unfold bind, List_.
  destruct (nodesList env (filterListOptions env alertSpec) w) as [r w1].
  cbn [fst] in Hlist. subst r. cbn [value events world fst snd app].
  destruct (Int32.wrap (Z.of_nat (List.length (corev1.Items nodes)))
              <? types.MinNodes (types.ReportStatus alertSpec));
    reflexivity.
Qed.

Lemma PollNode_list_failed alertSpec tick (cfg : Cfg) w cause :
  types.Name alertSpec = "*"%string ->
  fst (nodesList env (filterListOptions env alertSpec) w) = inr cause ->
  PollNode env alertSpec tick cfg w =
  Build_Outcome
    (Some {| Message := ("Unable to get nodes: " ++ cause)%string |})
    [EvList (filterListOptions env alertSpec) (inr cause)]
    (snd (nodesList env (filterListOptions env alertSpec) w)).
Proof.
  intros Hname Hlist. unfold PollNode.
  destruct (defaultThreshold_fields alertSpec) as (-> & -> & _).
  rewrite Hname. cbn [String.eqb Ascii.eqb Bool.eqb negb].
  fold (filterListOptions env alertSpec). unfold bind, List_.
  destruct (nodesList env (filterListOptions env alertSpec) w) as [r w1].
  cbn [fst] in Hlist. subst r. reflexivity.
Qed.

(** [PollNode] returns [nil] exactly when none of its fetches failed,
    for every spec. *)
Lemma PollNode_nil_iff alertSpec tick (cfg : Cfg) w :
  value (PollNode env alertSpec tick cfg w) = None
  <-> noFetchFailed (events (PollNode env alertSpec tick cfg w)) = true.
Proof.
  destruct (String.eqb_spec (types.Name alertSpec) "*") as [Hname|Hname].
  - destruct (fst (nodesList env (filterListOptions env alertSpec) w))
      as [nodes|cause] eqn:Hlist.
    + rewrite (PollNode_filtered _ _ _ _ _ Hname Hlist). cbv zeta.
      cbn [value events]. unfold noFetchFailed.
      cbn [forallb fetchFailed negb andb]. rewrite forallb_app.
      destruct (Int32.wrap (Z.of_nat (List.length (corev1.Items nodes)))
                  <? types.MinNodes (types.ReportStatus alertSpec));
        cbn [forallb fetchFailed negb andb];
      apply (loopTrace_nil_iff _ _ _ _ _ _ (pollItems_loopTrace _ _ _ _ _)).
    + rewrite (PollNode_list_failed _ _ _ _ _ Hname Hlist).
      cbn. split; discriminate.
  - rewrite (PollNode_named _ _ _ _ Hname). cbv zeta.
    destruct (fst (nodesGet env (types.Name alertSpec) w)) as [node|cause].
    + cbn [value events]. unfold noFetchFailed.
      cbn [forallb fetchFailed negb andb].
      rewrite checkNode_events. cbn [forallb fetchFailed negb andb].
      rewrite fetchFailed_alertEvents. split; reflexivity.
    + cbn. split; discriminate.
Qed.
(** A poll over [n] listed nodes dispatches at most [n + 1] times: the
    minimum-count alert and one alert for each node. *)
Lemma PollNode_dispatch_bound alertSpec tick (cfg : Cfg) w nodes :
  types.Name alertSpec = "*"%string ->
  fst (nodesList env (filterListOptions env alertSpec) w) = inl nodes ->
  (List.length (dispatches (events (PollNode env alertSpec tick cfg w)))
   <= S (List.length (corev1.Items nodes)))%nat.
Proof.
  intros Hname Hlist.
  rewrite (PollNode_filtered _ _ _ _ _ Hname Hlist). cbv zeta.
  cbn [events].
  change (dispatches (EvList ?o ?r :: ?tr)) with (dispatches tr).
  rewrite dispatches_app, length_app.
  pose proof (loopTrace_dispatch_bound _ _ _ _ _ _
                (pollItems_loopTrace (defaultThreshold alertSpec) tick cfg
                   (corev1.Items nodes)
                   (if Int32.wrap
                         (Z.of_nat (List.length (corev1.Items nodes)))
                       <? types.MinNodes (types.ReportStatus alertSpec)
                    then alertFn env (types.AlerterType alertSpec)
                           (types.AlerterName alertSpec)
                           (underMinimumMessage (types.NodeFilter alertSpec))
                           cfg
                           (snd (nodesList env
                                   (filterListOptions env alertSpec) w))
                    else snd (nodesList env
                                (filterListOptions env alertSpec) w))))
    as Hloop.
  destruct (Int32.wrap (Z.of_nat (List.length (corev1.Items nodes)))
              <? types.MinNodes (types.ReportStatus alertSpec));
    cbn [dispatches filter isAlert List.length] in *; lia.
Qed.
End PollNodeFacts.

Section PollNodeClaims.
Context {W Cfg : Type}.
Variable env : Env W Cfg.

(** C3.  For a filtered spec (name ["*"]) whose list call returns fewer
    nodes than [minNodes], the call right after the list call is the
    "under minimum" dispatch, whose message carries the filter; it comes
    before any fetch or evaluation of a node, it is made whatever the nodes
    and their conditions are, and no later dispatch of the poll carries
    that message: there is exactly one. *)
Theorem PollNode_under_minimum_dispatch alertSpec tick (cfg : Cfg) w nodes :
  types.Name alertSpec = "*"%string ->
  Int32.in_range (types.MinNodes (types.ReportStatus alertSpec)) ->
  fst (nodesList env (filterListOptions env alertSpec) w) = inl nodes ->
  Z.of_nat (List.length (corev1.Items nodes))
    < types.MinNodes (types.ReportStatus alertSpec) ->
  exists rest,
    events (PollNode env alertSpec tick cfg w)
    = EvList (filterListOptions env alertSpec) (inl nodes)
        :: EvAlert (types.AlerterType alertSpec) (types.AlerterName alertSpec)
                   ("Node count with filter" ++ types.NodeFilter alertSpec
                      ++ "in under minimum specification!")
                   cfg
        :: rest
    /\ ~ In (underMinimumMessage (types.NodeFilter alertSpec)) (messages rest).
Proof.
  intros Hname Hmin Hlist Hshort.
  rewrite (PollNode_filtered _ _ _ _ _ _ Hname Hlist). cbv zeta.
  rewrite Int32_wrap_in_range
    by (unfold Int32.in_range, Int32.min_signed in *; lia).
  destruct (Z.ltb_spec (Z.of_nat (List.length (corev1.Items nodes)))
              (types.MinNodes (types.ReportStatus alertSpec))) as [_|Hge];
    [|lia].
  cbn [events app]. eexists. split; [reflexivity|].
  intros Hin.
  destruct (loopTrace_messages _ _ _ _ _ _ (pollItems_loopTrace _ _ _ _ _ _)
              _ Hin) as [k Hk].
  destruct (defaultThreshold_fields alertSpec) as (Hn & _).
  rewrite Hn, Hname in Hk.
  exact (underMinimum_not_node_alert _ _ Hk).
Qed.

(** C4.  For a spec whose name is not the wildcard, the poll makes exactly
    one fetch, a fetch by that name; when it fails, the poll returns an
    error whose message carries the name and the cause, and that fetch is
    the only call made: there is no dispatch. *)
Theorem PollNode_named_single_fetch alertSpec tick (cfg : Cfg) w :
  types.Name alertSpec <> "*"%string ->
  let out := PollNode env alertSpec tick cfg w in
  fetches (events out)
  = [EvGet (types.Name alertSpec)
           (fst (nodesGet env (types.Name alertSpec) w))]
  /\ forall cause,
       fst (nodesGet env (types.Name alertSpec) w) = inr cause ->
       value out
       = Some {| Message :=
                   ("Unable to get node " ++ types.Name alertSpec
                      ++ ": " ++ cause)%string |}
       /\ events out = [EvGet (types.Name alertSpec) (inr cause)]
       /\ dispatches (events out) = [].
Proof.
  intros Hname out. subst out.
  rewrite (PollNode_named _ _ _ _ _ Hname). cbv zeta.
  destruct (fst (nodesGet env (types.Name alertSpec) w)) as [node|cause].
  - cbn [events value]. split.
    + unfold fetches. cbn [filter isFetch]. rewrite checkNode_events.
      cbn [filter isFetch].
      fold (fetches (alertEvents (defaultThreshold alertSpec) cfg
              (nodeAlert (defaultThreshold alertSpec) tick
                 (fst (timeNowUnix env
                         (snd (nodesGet env (types.Name alertSpec) w))))
                 node))).
      rewrite fetches_alertEvents. reflexivity.
    + intros cause Hc. discriminate Hc.
  - cbn [events value]. split; [reflexivity|].
    intros cause' Hc. injection Hc as <-. repeat split.
Qed.

(** C5.  [PollNode] returns [nil] exactly when none of its fetches failed,
    whatever was dispatched.  For a filtered spec whose list call
    succeeded, the calls after the list call (and the minimum-count alert,
    if any) are the ones [loopTrace] allows: every listed node is fetched
    by its name and the node fetched is then evaluated; if all fetches
    succeed, the names fetched are exactly those listed, in order; if one
    fails, the poll returns the error of that fetch, which is its last
    call, and only the nodes listed before the failing one were fetched
    before it. *)
Theorem PollNode_filtered_refetch alertSpec tick (cfg : Cfg) w :
  let out := PollNode env alertSpec tick cfg w in
  (value out = None <-> noFetchFailed (events out) = true)
  /\ forall nodes,
       types.Name alertSpec = "*"%string ->
       fst (nodesList env (filterListOptions env alertSpec) w) = inl nodes ->
       exists count tr,
         events out
         = EvList (filterListOptions env alertSpec) (inl nodes)
             :: count ++ tr
         /\ getNames count = []
         /\ loopTrace (defaultThreshold alertSpec) tick cfg
              (corev1.Items nodes) tr (value out)
         /\ (value out = None ->
             getNames (events out)
             = map corev1.GetName (corev1.Items nodes))
         /\ (forall err, value out = Some err ->
             exists pre nodedata post cause tr',
               corev1.Items nodes = pre ++ nodedata :: post
               /\ tr = tr' ++ [EvGet (corev1.GetName nodedata) (inr cause)]
               /\ getNames tr' = map corev1.GetName pre
               /\ noFetchFailed tr' = true
               /\ err = {| Message :=
                             ("Unable to get node "
                                ++ corev1.GetName nodedata
                                ++ ": " ++ cause)%string |}).
Proof.
  intros out. split; [apply PollNode_nil_iff|].
  intros nodes Hname Hlist. subst out.
  rewrite (PollNode_filtered _ _ _ _ _ _ Hname Hlist). cbv zeta.
  cbn [events value].
  set (short := Int32.wrap (Z.of_nat (List.length (corev1.Items nodes)))
                  <? types.MinNodes (types.ReportStatus alertSpec)).
  set (w2 := if short then alertFn env _ _ _ _ _ else _).
  pose proof (pollItems_loopTrace env (defaultThreshold alertSpec) tick cfg
                (corev1.Items nodes) w2) as Hloop.
  eexists _, _. split; [reflexivity|]. split; [|split; [exact Hloop|split]].
  - destruct short; reflexivity.
  - intros Hnil. rewrite Hnil in Hloop. cbn [getNames].
    rewrite getNames_app.
    replace (getNames (if short then _ else _)) with (@nil string)
      by (destruct short; reflexivity).
    apply (loopTrace_all_fetched _ _ _ _ _ Hloop).
  - intros err Herr. rewrite Herr in Hloop.
    apply (loopTrace_error _ _ _ _ _ _ Hloop).
Qed.

(** C8, amended.  The threshold [PollNode] evaluates with is never zero:
    a zero [pendingThreshold] is replaced by 10 before anything else is
    done and any other value is kept as it is, so it is positive whenever
    the spec's value is not negative.  A spec with [pendingThreshold] zero
    behaves, in its calls, its returned error and the world it leaves, as
    the same spec with [pendingThreshold = 10]. *)
Theorem PollNode_zero_threshold_is_ten alertSpec tick (cfg : Cfg) w :
  types.PendingThreshold (types.ReportStatus alertSpec) = 0 ->
  PollNode env alertSpec tick cfg w
  = PollNode env (types.setPendingThreshold alertSpec 10) tick cfg w
  /\ types.PendingThreshold (types.ReportStatus (defaultThreshold alertSpec))
     = 10
  /\ forall other : types.NodeAlertSpec,
       types.PendingThreshold (types.ReportStatus (defaultThreshold other))
         <> 0
       /\ (types.PendingThreshold (types.ReportStatus other) <> 0 ->
           defaultThreshold other = other)
       /\ (0 <= types.PendingThreshold (types.ReportStatus other) ->
           0 < types.PendingThreshold
                 (types.ReportStatus (defaultThreshold other))).
Proof.
  intros Hzero. split; [|split].
  - unfold PollNode. rewrite (defaultThreshold_zero _ Hzero).
    rewrite (defaultThreshold_nonzero (types.setPendingThreshold alertSpec 10))
      by (cbn; lia).
    reflexivity.
  - rewrite (defaultThreshold_zero _ Hzero). reflexivity.
  - intros other. unfold defaultThreshold.
    destruct (Z.eqb_spec
                (types.PendingThreshold (types.ReportStatus other)) 0)
      as [E|E]; cbn [types.setPendingThreshold types.PendingThreshold
                     types.ReportStatus].
    + split; [lia | split; [intros H; contradiction | intros _; lia]].
    + split; [exact E | split; [reflexivity | lia]].
Qed.
End PollNodeClaims.

(** ** The poll depends on the answers of its collaborators only *)

Section SameAnswers.
Context {W1 W2 Cfg : Type}.
Variable env1 : Env W1 Cfg.
Variable env2 : Env W2 Cfg.
Variable R : W1 -> W2 -> Prop.
Hypothesis Hsame : sameAnswers env1 env2 R.

Lemma checkNode_sameOutcome node alertSpec tick (cfg : Cfg) w1 w2 :
  R w1 w2 ->
  sameOutcome R (checkNode env1 node alertSpec tick cfg w1)
                (checkNode env2 node alertSpec tick cfg w2).
Proof.
  intros HR. rewrite !checkNode_outcome. cbv zeta.
  destruct (same_clock _ _ _ Hsame w1 w2 HR) as [Ht HR1]. rewrite Ht.
  destruct (nodeAlert alertSpec tick (fst (timeNowUnix env2 w2)) node).
  - repeat split. cbn [world]. apply (same_alert _ _ _ Hsame), HR1.
  - repeat split. exact HR1.
Qed.

Lemma pollItems_sameOutcome alertSpec tick (cfg : Cfg) items :
  forall w1 w2,
    R w1 w2 ->
    sameOutcome R (pollItems env1 alertSpec tick cfg items w1)
                  (pollItems env2 alertSpec tick cfg items w2).
Proof.
  induction items as [|nodedata rest IH]; intros w1 w2 HR.
  - repeat split. exact HR.
  - cbn [pollItems]. unfold bind, Get.
    destruct (same_get _ _ _ Hsame (corev1.GetName nodedata) w1 w2 HR)
      as [Hr HR1].
    destruct (nodesGet env1 (corev1.GetName nodedata) w1) as [r1 w1'].
    destruct (nodesGet env2 (corev1.GetName nodedata) w2) as [r2 w2'].
    cbn [fst snd] in Hr, HR1. subst r2. cbn [value events world].
    destruct r1 as [node|cause].
    + destruct (checkNode_sameOutcome node alertSpec tick cfg _ _ HR1)
        as (_ & He & HR2).
      destruct (IH _ _ HR2) as (Hv & He' & HR3).
      repeat split; cbn [value events world].
      * exact Hv.
      * rewrite He, He'. reflexivity.
      * exact HR3.
    + repeat split. exact HR1.
Qed.

(** C9.  Two polls with the same spec, tick interval and alerter
    configuration, run against collaborators that answer alike (the same
    clock readings, the same nodes and fetch errors), make the same calls
    in the same order, so the same dispatch calls, and return the same
    error: nothing but the arguments and the answers enters the result,
    whatever other state the two worlds hold. *)
Theorem PollNode_same_inputs_same_outcome
    alertSpec tick (cfg : Cfg) w1 w2 :
  R w1 w2 ->
  value (PollNode env1 alertSpec tick cfg w1)
  = value (PollNode env2 alertSpec tick cfg w2)
  /\ events (PollNode env1 alertSpec tick cfg w1)
     = events (PollNode env2 alertSpec tick cfg w2)
  /\ dispatches (events (PollNode env1 alertSpec tick cfg w1))
     = dispatches (events (PollNode env2 alertSpec tick cfg w2))
  /\ R (world (PollNode env1 alertSpec tick cfg w1))
       (world (PollNode env2 alertSpec tick cfg w2)).
Proof.
  intros HR.
  enough (H : sameOutcome R (PollNode env1 alertSpec tick cfg w1)
                            (PollNode env2 alertSpec tick cfg w2)).
  { destruct H as (Hv & He & Hw). rewrite He. repeat split; assumption. }
  unfold PollNode. rewrite (same_timeout _ _ _ Hsame).
  destruct (negb (types.Name (defaultThreshold alertSpec) =? "*")%string).
  - unfold bind, Get.
    destruct (same_get _ _ _ Hsame
                (types.Name (defaultThreshold alertSpec)) w1 w2 HR)
      as [Hr HR1].
    destruct (nodesGet env1 (types.Name (defaultThreshold alertSpec)) w1)
      as [r1 w1'].
    destruct (nodesGet env2 (types.Name (defaultThreshold alertSpec)) w2)
      as [r2 w2'].
    cbn [fst snd] in Hr, HR1. subst r2. cbn [value events world].
    destruct r1 as [node|cause].
    + destruct (checkNode_sameOutcome node (defaultThreshold alertSpec)
                  tick cfg _ _ HR1) as (_ & He & HR2).
      repeat split; cbn [value events world ret].
      * rewrite He. reflexivity.
      * exact HR2.
    + repeat split. exact HR1.
  - unfold bind, List_.
    set (opts := {| metav1.LabelSelector := _ |}).
    destruct (same_list _ _ _ Hsame opts w1 w2 HR) as [Hr HR1].
    destruct (nodesList env1 opts w1) as [r1 w1'].
    destruct (nodesList env2 opts w2) as [r2 w2'].
    cbn [fst snd] in Hr, HR1. subst r2. cbn [value events world].
    destruct r1 as [nodes|cause].
    + destruct (Int32.wrap (Z.of_nat (List.length (corev1.Items nodes)))
                  <? types.MinNodes
                       (types.ReportStatus (defaultThreshold alertSpec)));
        cbn [alert ret value events world].
      * destruct (pollItems_sameOutcome (defaultThreshold alertSpec) tick cfg
                    (corev1.Items nodes) _ _
                    (same_alert _ _ _ Hsame
                       (types.AlerterType (defaultThreshold alertSpec))
                       (types.AlerterName (defaultThreshold alertSpec))
                       (Sprint ["Node count with filter"%string;
                                types.NodeFilter (defaultThreshold alertSpec);
                                "in under minimum specification!"%string])
                       cfg _ _ HR1))
          as (Hv & He & HR2).
        repeat split; [exact Hv | rewrite He; reflexivity | exact HR2].
      * destruct (pollItems_sameOutcome (defaultThreshold alertSpec) tick cfg
                    (corev1.Items nodes) _ _ HR1) as (Hv & He & HR2).
        repeat split; [exact Hv | rewrite He; reflexivity | exact HR2].
    + repeat split. exact HR1.
Qed.
End SameAnswers.

(** ** The name in the message *)

Section MessageFacts.
Context {W Cfg : Type}.
Variable env : Env W Cfg.

Lemma nodeAlert_withName alertSpec tick t node name :
  nodeAlert alertSpec tick t (withName node name)
  = nodeAlert alertSpec tick t node.
Proof. reflexivity. Qed.

Lemma checkNode_messages node alertSpec tick (cfg : Cfg) w :
  messages (events (checkNode env node alertSpec tick cfg w))
  = match nodeAlert alertSpec tick (fst (timeNowUnix env w)) node with
    | Some k => [("Node" ++ types.Name alertSpec ++ kindText k)%string]
    | None => []
    end.
Proof.
  rewrite checkNode_events. cbn [messages].
  destruct (nodeAlert alertSpec tick (fst (timeNowUnix env w)) node);
    reflexivity.
Qed.

(** Under a filtered spec every message of a poll is the minimum-count
    message or a node-level message with ["*"] where a name would stand. *)
Lemma PollNode_wildcard_messages alertSpec tick (cfg : Cfg) w :
  types.Name alertSpec = "*"%string ->
  forall m, In m (messages (events (PollNode env alertSpec tick cfg w))) ->
            m = underMinimumMessage (types.NodeFilter alertSpec)
            \/ exists k, m = ("Node*" ++ kindText k)%string.
Proof.
  intros Hname m.
  destruct (fst (nodesList env (filterListOptions env alertSpec) w))
    as [nodes|cause] eqn:Hlist.
  - rewrite (PollNode_filtered _ _ _ _ _ _ Hname Hlist). cbv zeta.
    cbn [events messages]. rewrite messages_app. intros Hin.
    apply in_app_or in Hin. destruct Hin as [Hin|Hin].
    + left.
      destruct (Int32.wrap (Z.of_nat (List.length (corev1.Items nodes)))
                  <? types.MinNodes (types.ReportStatus alertSpec));
        cbn in Hin; [destruct Hin as [<-|[]]; reflexivity | destruct Hin].
    + right.
      destruct (loopTrace_messages _ _ _ _ _ _
                  (pollItems_loopTrace _ _ _ _ _ _) _ Hin) as [k Hk].
      destruct (defaultThreshold_fields alertSpec) as (Hn & _).
      rewrite Hn, Hname in Hk. exists k. exact Hk.
  - rewrite (PollNode_list_failed _ _ _ _ _ _ Hname Hlist).
    cbn. intros [].
Qed.

(** C10, amended.  The message of a node-level alert is built from the
    name field of the spec and the kind of the condition that fired, and
    from nothing of the node: renaming the node changes no call.  So under
    a filtered spec every node-level message has ["*"] where a name would
    stand, and two nodes whose alerts fire for the same kind of condition
    get identical messages. *)
Theorem checkNode_message_embeds_spec_name
    node alertSpec tick (cfg : Cfg) w :
  let t := fst (timeNowUnix env w) in
  messages (events (checkNode env node alertSpec tick cfg w))
  = match nodeAlert alertSpec tick t node with
    | Some k => [("Node" ++ types.Name alertSpec ++ kindText k)%string]
    | None => []
    end
  /\ (forall name,
        checkNode env (withName node name) alertSpec tick cfg w
        = checkNode env node alertSpec tick cfg w)
  /\ (forall node' w',
        nodeAlert alertSpec tick (fst (timeNowUnix env w')) node'
        = nodeAlert alertSpec tick t node ->
        messages (events (checkNode env node' alertSpec tick cfg w'))
        = messages (events (checkNode env node alertSpec tick cfg w)))
  /\ (types.Name alertSpec = "*"%string ->
      (forall m,
         In m (messages (events (checkNode env node alertSpec tick cfg w))) ->
         exists k, m = ("Node*" ++ kindText k)%string)
      /\ forall w0 m,
           In m (messages (events (PollNode env alertSpec tick cfg w0))) ->
           m = underMinimumMessage (types.NodeFilter alertSpec)
           \/ exists k, m = ("Node*" ++ kindText k)%string).
Proof.
  intros t. split; [apply checkNode_messages|]. split; [|split].
  - intros name. apply checkNode_same_decision, nodeAlert_withName.
  - intros node' w' Hdec. rewrite !checkNode_messages. fold t.
    rewrite Hdec. reflexivity.
  - intros Hname. split.
    + intros m. rewrite checkNode_messages. fold t. rewrite Hname.
      destruct (nodeAlert alertSpec tick t node) as [k|]; cbn [In].
      * intros [<-|[]]. exists k. reflexivity.
      * intros [].
    + intros w0. apply PollNode_wildcard_messages, Hname.
Qed.
End MessageFacts.

(** ** The statements on the sample clusters *)

(** C1 fails as stated.  A node exactly [pendingThreshold] seconds old
    ("at or above") with a [Ready] condition 5 seconds old, tick interval
    10 and [nodeReady] set gets no dispatch at all; and an old enough node
    with such a [Ready] condition, listed after a fresh and opted-in
    [DiskPressure] condition, gets the disk-pressure message, not the
    ready-status one. *)
Lemma checkNode_ready_alert_not_at_threshold :
  let env := Sample.cluster Sample.clock [] [] in
  (age Sample.clock Sample.tenSecondsOld
     >= types.PendingThreshold (types.ReportStatus Sample.spec1)
   /\ In Sample.freshReady
         (corev1.Conditions (corev1.Status Sample.tenSecondsOld))
   /\ corev1.Type_ Sample.freshReady = "Ready"%string
   /\ sinceTransition Sample.clock Sample.freshReady = 5
   /\ types.NodeReady (types.ReportStatus Sample.spec1) = true
   /\ fst (timeNowUnix env 0%nat) = Sample.clock
   /\ dispatches
        (events (checkNode env Sample.tenSecondsOld Sample.spec1 10 tt 0%nat))
      = [])
  /\ (age Sample.clock Sample.node2
        >= types.PendingThreshold (types.ReportStatus Sample.spec1)
      /\ In Sample.freshReady (corev1.Conditions (corev1.Status Sample.node2))
      /\ messages
           (events (checkNode env Sample.node2 Sample.spec1 10 tt 0%nat))
         = ["Nodenode-1has changed DiskPressure tatus since last poll and may have observed disk pressure!"%string]).
Proof.
  cbv zeta. split.
  - split; [vm_compute; discriminate|].
    split; [left; reflexivity|].
    repeat split.
  - split; [vm_compute; discriminate|].
    split; [right; left; reflexivity|].
    reflexivity.
Qed.

Lemma checkNode_ready_alert_witness :
  let env := Sample.cluster Sample.clock [] [] in
  dispatches (events (checkNode env Sample.node1 Sample.spec1 10 tt 0%nat))
  = [EvAlert "email" "ops"
       "Nodenode-1has changed ready status since last poll and may be restarting!"
       tt]
  /\ forall post',
       checkNode env
         (withConditions Sample.node1
            ([Sample.staleMemory] ++ Sample.freshReady :: post'))
         Sample.spec1 10 tt 0%nat
       = checkNode env Sample.node1 Sample.spec1 10 tt 0%nat.
Proof.
  exact (checkNode_ready_alert (Sample.cluster Sample.clock [] [])
           Sample.node1 Sample.spec1 tt 0%nat
           [Sample.staleMemory] Sample.freshReady [Sample.freshDisk]
           eq_refl eq_refl eq_refl eq_refl eq_refl eq_refl).
Defined.

Lemma checkNode_young_node_no_dispatch_witness :
  let env := Sample.cluster Sample.clock [] [] in
  dispatches
    (events (checkNode env Sample.tenSecondsOld Sample.spec1 10 tt 0%nat))
  = []
  /\ dispatches
       (events (checkNode env Sample.tenSecondsOld
                  (defaultThreshold Sample.spec1) 10 tt 0%nat))
     = [].
Proof.
  apply (checkNode_young_node_no_dispatch (Sample.cluster Sample.clock [] [])
           Sample.tenSecondsOld Sample.spec1 10 tt 0%nat).
  vm_compute. discriminate.
Defined.

Lemma PollNode_under_minimum_dispatch_witness :
  let env :=
    Sample.cluster Sample.clock [Sample.node1; Sample.node2]
                   [Sample.node1; Sample.node2] in
  exists rest,
    events (PollNode env Sample.specWorkers 10 tt 0%nat)
    = EvList (filterListOptions env Sample.specWorkers)
             (inl {| corev1.Items := [Sample.node1; Sample.node2] |})
        :: EvAlert "email" "ops"
             "Node count with filterrole=workerin under minimum specification!"
             tt
        :: rest
    /\ ~ In (underMinimumMessage "role=worker") (messages rest).
Proof.
  apply (PollNode_under_minimum_dispatch
           (Sample.cluster Sample.clock [Sample.node1; Sample.node2]
                           [Sample.node1; Sample.node2])
           Sample.specWorkers 10 tt 0%nat
           {| corev1.Items := [Sample.node1; Sample.node2] |}).
  - reflexivity.
  - split; vm_compute; discriminate.
  - reflexivity.
  - reflexivity.
Defined.

Lemma PollNode_named_single_fetch_witness :
  let env := Sample.cluster Sample.clock [] [Sample.node1] in
  let out := PollNode env Sample.specGhost 10 tt 0%nat in
  fetches (events out) = [EvGet "ghost" (inr "not found"%string)]
  /\ forall cause,
       fst (nodesGet env "ghost" 0%nat) = inr cause ->
       value out
       = Some {| Message := ("Unable to get node ghost: " ++ cause)%string |}
       /\ events out = [EvGet "ghost" (inr cause)]
       /\ dispatches (events out) = [].
Proof.
  apply (PollNode_named_single_fetch
           (Sample.cluster Sample.clock [] [Sample.node1])
           Sample.specGhost 10 tt 0%nat).
  discriminate.
Defined.

Lemma PollNode_filtered_refetch_witness :
  let env :=
    Sample.cluster Sample.clock
      [Sample.node1; Sample.vanished; Sample.node2]
      [Sample.node1; Sample.node2] in
  let out := PollNode env Sample.specWorkers 10 tt 0%nat in
  exists count tr,
    events out
    = EvList (filterListOptions env Sample.specWorkers)
        (inl {| corev1.Items :=
                  [Sample.node1; Sample.vanished; Sample.node2] |})
        :: count ++ tr
    /\ getNames count = []
    /\ loopTrace (defaultThreshold Sample.specWorkers) 10 tt
         [Sample.node1; Sample.vanished; Sample.node2] tr (value out)
    /\ (value out = None ->
        getNames (events out) = ["node-1"; "node-9"; "node-2"]%string)
    /\ (forall err, value out = Some err ->
        exists pre nodedata post cause tr',
          [Sample.node1; Sample.vanished; Sample.node2]
          = pre ++ nodedata :: post
          /\ tr = tr' ++ [EvGet (corev1.GetName nodedata) (inr cause)]
          /\ getNames tr' = map corev1.GetName pre
          /\ noFetchFailed tr' = true
          /\ err = {| Message :=
                        ("Unable to get node " ++ corev1.GetName nodedata
                           ++ ": " ++ cause)%string |}).
Proof.
  exact (proj2 (PollNode_filtered_refetch
                  (Sample.cluster Sample.clock
                     [Sample.node1; Sample.vanished; Sample.node2]
                     [Sample.node1; Sample.node2])
                  Sample.specWorkers 10 tt 0%nat)
           {| corev1.Items := [Sample.node1; Sample.vanished; Sample.node2] |}
           eq_refl eq_refl).
Defined.

Lemma checkNode_at_most_one_dispatch_witness :
  let env := Sample.cluster Sample.clock [] [] in
  let out := checkNode env Sample.node1 Sample.spec1 10 tt 0%nat in
  dispatches (events out)
  = [EvAlert "email" "ops" (alertMessage "node-1" Ready) tt]
  /\ forall post',
       checkNode env
         (withConditions Sample.node1
            ([Sample.staleMemory] ++ Sample.freshReady :: post'))
         Sample.spec1 10 tt 0%nat
       = out.
Proof.
  exact (proj2 (proj2 (checkNode_at_most_one_dispatch
                         (Sample.cluster Sample.clock [] [])
                         Sample.node1 Sample.spec1 10 tt 0%nat))
           [Sample.staleMemory] Sample.freshReady [Sample.freshDisk] Ready
           eq_refl eq_refl eq_refl eq_refl eq_refl eq_refl).
Defined.

Lemma checkNode_opted_out_condition_skipped_witness :
  let env := Sample.cluster Sample.clock [] [] in
  (forall w',
     scanConditions env Sample.spec1NoReady 10 Sample.clock tt
       [Sample.freshReady; Sample.freshDisk] w'
     = scanConditions env Sample.spec1NoReady 10 Sample.clock tt
         [Sample.freshDisk] w')
  /\ checkNode env Sample.node1 Sample.spec1NoReady 10 tt 0%nat
     = checkNode env (withConditions Sample.node1 [Sample.freshDisk])
         Sample.spec1NoReady 10 tt 0%nat.
Proof.
  exact (checkNode_opted_out_condition_skipped
           (Sample.cluster Sample.clock [] [])
           Sample.node1 Sample.spec1NoReady 10 tt 0%nat
           [Sample.staleMemory] Sample.freshReady [Sample.freshDisk] Ready
           eq_refl eq_refl eq_refl eq_refl eq_refl eq_refl).
Defined.

(** C8 fails as stated.  A negative [pendingThreshold] is not replaced:
    the poll evaluates with the value -5, which is not positive, and so
    alerts on a node created in the very second of the poll, which no
    positive threshold lets through. *)
Lemma PollNode_negative_threshold_kept :
  let env := Sample.cluster Sample.clock [] [Sample.newborn] in
  types.PendingThreshold (types.ReportStatus Sample.specNegative) = -5
  /\ types.PendingThreshold
       (types.ReportStatus (defaultThreshold Sample.specNegative)) = -5
  /\ ~ 0 < types.PendingThreshold
             (types.ReportStatus (defaultThreshold Sample.specNegative))
  /\ age Sample.clock Sample.newborn = 0
  /\ events (PollNode env Sample.specNegative 10 tt 0%nat)
     = [EvGet "node-4" (inl Sample.newborn);
        EvNow Sample.clock;
        EvAlert "email" "ops"
          "Nodenode-4has changed ready status since last poll and may be restarting!"
          tt].
Proof.
  cbv zeta. repeat split. vm_compute. discriminate.
Qed.

Lemma PollNode_zero_threshold_is_ten_witness :
  let env := Sample.cluster Sample.clock [] [Sample.node1] in
  PollNode env Sample.specUnset 10 tt 0%nat
  = PollNode env (types.setPendingThreshold Sample.specUnset 10) 10 tt 0%nat
  /\ types.PendingThreshold
       (types.ReportStatus (defaultThreshold Sample.specUnset)) = 10
  /\ forall other : types.NodeAlertSpec,
       types.PendingThreshold (types.ReportStatus (defaultThreshold other))
         <> 0
       /\ (types.PendingThreshold (types.ReportStatus other) <> 0 ->
           defaultThreshold other = other)
       /\ (0 <= types.PendingThreshold (types.ReportStatus other) ->
           0 < types.PendingThreshold
                 (types.ReportStatus (defaultThreshold other))).
Proof.
  exact (PollNode_zero_threshold_is_ten
           (Sample.cluster Sample.clock [] [Sample.node1])
           Sample.specUnset 10 tt 0%nat eq_refl).
Defined.

(** The cluster that counts its calls and the one that does not answer
    alike, whatever the count is. *)
Lemma Sample_clusters_sameAnswers t listed store :
  sameAnswers (Sample.cluster t listed store)
              (Sample.plainCluster t listed store)
              (fun _ _ => True).
Proof. constructor; intros; cbn; auto. Defined.

Lemma PollNode_same_inputs_same_outcome_witness :
  let listed := [Sample.node1; Sample.vanished; Sample.node2] in
  let store := [Sample.node1; Sample.node2] in
  let o1 :=
    PollNode (Sample.cluster Sample.clock listed store)
             Sample.specWorkers 10 tt 7%nat in
  let o2 :=
    PollNode (Sample.plainCluster Sample.clock listed store)
             Sample.specWorkers 10 tt tt in
  value o1 = value o2
  /\ events o1 = events o2
  /\ dispatches (events o1) = dispatches (events o2)
  /\ True.
Proof.
  exact (PollNode_same_inputs_same_outcome
           (Sample.cluster Sample.clock
              [Sample.node1; Sample.vanished; Sample.node2]
              [Sample.node1; Sample.node2])
           (Sample.plainCluster Sample.clock
              [Sample.node1; Sample.vanished; Sample.node2]
              [Sample.node1; Sample.node2])
           (fun _ _ => True)
           (Sample_clusters_sameAnswers Sample.clock
              [Sample.node1; Sample.vanished; Sample.node2]
              [Sample.node1; Sample.node2])
           Sample.specWorkers 10 tt 7%nat tt I).
Defined.

(** C10 fails as stated.  Under one filtered spec, the alert for a node
    whose [Ready] condition fired and the alert for a node whose
    [DiskPressure] condition fired carry different messages, although both
    have ["*"] where a name would stand. *)
Lemma PollNode_distinct_kinds_distinct_messages :
  let env :=
    Sample.cluster Sample.clock [Sample.nodeReadyOnly; Sample.nodeDiskOnly]
                   [Sample.nodeReadyOnly; Sample.nodeDiskOnly] in
  let readyMessage :=
    "Node*has changed ready status since last poll and may be restarting!"%string in
  let diskMessage :=
    "Node*has changed DiskPressure tatus since last poll and may have observed disk pressure!"%string in
  types.Name Sample.specWorkers = "*"%string
  /\ events (PollNode env Sample.specWorkers 10 tt 0%nat)
     = [EvList (filterListOptions env Sample.specWorkers)
          (inl {| corev1.Items :=
                    [Sample.nodeReadyOnly; Sample.nodeDiskOnly] |});
        EvAlert "email" "ops"
          "Node count with filterrole=workerin under minimum specification!"
          tt;
        EvGet "node-5" (inl Sample.nodeReadyOnly);
        EvNow Sample.clock;
        EvAlert "email" "ops" readyMessage tt;
        EvGet "node-6" (inl Sample.nodeDiskOnly);
        EvNow Sample.clock;
        EvAlert "email" "ops" diskMessage tt]
  /\ readyMessage <> diskMessage.
Proof.
  cbv zeta. repeat split. discriminate.
Qed.

Lemma checkNode_message_embeds_spec_name_witness :
  let env := Sample.cluster Sample.clock [] [] in
  (forall m,
     In m (messages
             (events (checkNode env Sample.node1 Sample.specWorkers 10 tt
                        0%nat))) ->
     exists k, m = ("Node*" ++ kindText k)%string)
  /\ forall w0 m,
       In m (messages (events (PollNode env Sample.specWorkers 10 tt w0))) ->
       m = underMinimumMessage "role=worker"
       \/ exists k, m = ("Node*" ++ kindText k)%string.
Proof.
  exact (proj2 (proj2 (proj2 (checkNode_message_embeds_spec_name
                                (Sample.cluster Sample.clock [] [])
                                Sample.node1 Sample.specWorkers 10 tt 0%nat)))
           eq_refl).
Defined.

(** ** More on the scan of one node *)

Lemma find_filter_superset {A : Type} (p q : A -> bool) (l : list A) :
  (forall x, p x = true -> q x = true) ->
  find p (filter q l) = find p l.
Proof.
  intros Hpq. induction l as [|x l IH]; [reflexivity|].
  cbn [filter find].
  destruct (p x) eqn:Hp.
  - rewrite (Hpq x Hp). cbn [find]. rewrite Hp. reflexivity.
  - destruct (q x); [cbn [find]; rewrite Hp|]; exact IH.
Qed.

Lemma find_none_forall {A : Type} (p : A -> bool) (l : list A) :
  (forall x, In x l -> p x = false) -> find p l = None.
Proof.
  induction l as [|x l IH]; intros H; [reflexivity|].
  cbn [find]. rewrite (H x (or_introl eq_refl)).
  apply IH. intros y Hy. apply H. right. exact Hy.
Qed.

Lemma find_some_mono {A : Type} (p q : A -> bool) (l : list A) :
  (forall x, p x = true -> q x = true) ->
  find p l <> None -> find q l <> None.
Proof.
  intros Hpq. induction l as [|x l IH]; [intros H; exact H|].
  cbn [find]. destruct (p x) eqn:Hp.
  - rewrite (Hpq x Hp). discriminate.
  - destruct (q x); [discriminate | exact IH].
Qed.

Lemma fires_recognized alertSpec tick t c :
  fires alertSpec tick t c = true -> recognized c = true.
Proof.
  unfold fires, recognized.
  destruct (kindOf (corev1.Type_ c)); [reflexivity | discriminate].
Qed.

Lemma fires_kind alertSpec tick t c :
  fires alertSpec tick t c = true -> kindOf (corev1.Type_ c) <> None.
Proof.
  unfold fires. destruct (kindOf (corev1.Type_ c)); discriminate.
Qed.

Lemma firstFiring_none_iff alertSpec tick t conditions :
  firstFiring alertSpec tick t conditions = None
  <-> find (fires alertSpec tick t) conditions = None.
Proof.
  unfold firstFiring.
  destruct (find (fires alertSpec tick t) conditions) as [c|] eqn:Hfind.
  - apply find_some in Hfind. destruct Hfind as [_ Hf].
    split; [|discriminate].
    intros H. exfalso. exact (fires_kind _ _ _ _ Hf H).
  - split; reflexivity.
Qed.

Lemma fires_tick_mono alertSpec tick tick' t c :
  tick <= tick' ->
  fires alertSpec tick t c = true -> fires alertSpec tick' t c = true.
Proof.
  intros Hle. unfold fires, fresh.
  destruct (kindOf (corev1.Type_ c)); [|discriminate].
  intros H. apply andb_true_iff in H. destruct H as [Hlt Hopt].
  apply Z.ltb_lt in Hlt. apply andb_true_iff. split; [|exact Hopt].
  apply Z.ltb_lt. lia.
Qed.

Section MoreCheckNodeFacts.
Context {W Cfg : Type}.
Variable env : Env W Cfg.

(** X5.  Only the conditions that fire matter to the evaluation of a
    node: dropping from its list every condition that is not recognized,
    not fresh or not opted in, or just every condition of an unrecognized
    type, changes no call and no result. *)
Theorem checkNode_only_firing_conditions_matter
    node alertSpec tick (cfg : Cfg) w :
  let t := fst (timeNowUnix env w) in
  let conditions := corev1.Conditions (corev1.Status node) in
  checkNode env
    (withConditions node (filter (fires alertSpec tick t) conditions))
    alertSpec tick cfg w
  = checkNode env node alertSpec tick cfg w
  /\ checkNode env (withConditions node (filter recognized conditions))
       alertSpec tick cfg w
     = checkNode env node alertSpec tick cfg w.
Proof.
  intros t conditions. split.
  - apply checkNode_same_decision. fold t. unfold nodeAlert.
    rewrite age_withConditions.
    cbn [withConditions corev1.Conditions corev1.Status].
    fold conditions. unfold firstFiring.
    rewrite find_filter_superset by (intros x Hx; exact Hx). reflexivity.
  - apply checkNode_same_decision. fold t. unfold nodeAlert.
    rewrite age_withConditions.
    cbn [withConditions corev1.Conditions corev1.Status].
    fold conditions. unfold firstFiring.
    rewrite find_filter_superset by apply fires_recognized. reflexivity.
Qed.

(** X7.  A node none of whose conditions changed within the last
    [tickertime] seconds gets no dispatch call, whatever the opt-in flags
    and the threshold are; in particular a tick interval of zero or less
    silences every node whose transitions all lie in the past. *)
Theorem checkNode_stale_conditions_no_dispatch
    node alertSpec tick (cfg : Cfg) w :
  (forall c, In c (corev1.Conditions (corev1.Status node)) ->
             tick <= sinceTransition (fst (timeNowUnix env w)) c) ->
  events (checkNode env node alertSpec tick cfg w)
  = [EvNow (fst (timeNowUnix env w))]
  /\ dispatches (events (checkNode env node alertSpec tick cfg w)) = [].
Proof.
  intros Hstale.
  assert (Hnone : nodeAlert alertSpec tick (fst (timeNowUnix env w)) node
                  = None).
  { unfold nodeAlert.
    destruct (_ >? _); [|reflexivity].
    apply firstFiring_none_iff, find_none_forall.
    intros c Hc. unfold fires, fresh.
    destruct (kindOf (corev1.Type_ c)); [|reflexivity].
    destruct (Z.ltb_spec (sinceTransition (fst (timeNowUnix env w)) c) tick)
      as [Hlt|_]; [|reflexivity].
    specialize (Hstale c Hc). lia. }
  split.
  - rewrite checkNode_events, Hnone. reflexivity.
  - rewrite checkNode_dispatches, Hnone. reflexivity.
Qed.

(** X9.  Raising [pendingThreshold] can only silence a node: under the
    higher threshold the evaluation makes either no dispatch call or the
    very call it makes under the lower one. *)
Theorem checkNode_higher_threshold_only_silences
    node alertSpec tick (cfg : Cfg) w v v' :
  v <= v' ->
  let lower :=
    dispatches (events (checkNode env node
                          (types.setPendingThreshold alertSpec v)
                          tick cfg w)) in
  let higher :=
    dispatches (events (checkNode env node
                          (types.setPendingThreshold alertSpec v')
                          tick cfg w)) in
  higher = [] \/ higher = lower.
Proof.
  intros Hle lower higher. subst lower higher.
  rewrite !checkNode_dispatches. unfold nodeAlert.
  cbn [types.setPendingThreshold types.PendingThreshold types.ReportStatus].
  destruct (Z.gtb_spec (age (fst (timeNowUnix env w)) node) v') as [Hgt|_].
  - destruct (Z.gtb_spec (age (fst (timeNowUnix env w)) node) v) as [_|Hno];
      [|lia].
    right. reflexivity.
  - left. reflexivity.
Qed.

(** X15.  A longer tick interval never silences a node: if the evaluation
    dispatches under [tickertime], it also dispatches under any larger
    one (possibly for an earlier condition of the list). *)
Theorem checkNode_longer_tick_still_dispatches
    node alertSpec tick tick' (cfg : Cfg) w :
  tick <= tick' ->
  dispatches (events (checkNode env node alertSpec tick cfg w)) <> [] ->
  List.length
    (dispatches (events (checkNode env node alertSpec tick' cfg w)))
  = 1%nat.
Proof.
  intros Hle. rewrite !checkNode_dispatches. unfold nodeAlert.
  destruct (_ >? _); [|intros H; contradiction H; reflexivity].
  intros H.
  assert (Hsome : firstFiring alertSpec tick' (fst (timeNowUnix env w))
                    (corev1.Conditions (corev1.Status node)) <> None).
  { rewrite firstFiring_none_iff.
    apply (find_some_mono (fires alertSpec tick (fst (timeNowUnix env w)))).
    - intros c. apply fires_tick_mono, Hle.
    - rewrite <- firstFiring_none_iff. intros Hn. apply H. rewrite Hn.
      reflexivity. }
  destruct (firstFiring alertSpec tick' (fst (timeNowUnix env w))
              (corev1.Conditions (corev1.Status node)));
    [reflexivity | contradiction Hsome; reflexivity].
Qed.
End MoreCheckNodeFacts.

(** ** More on the loop and the poll *)

Section MoreTraceFacts.
Context {Cfg : Type}.
Implicit Types tr : list (@Event Cfg).

Lemma clockReads_app tr1 tr2 :
  clockReads (tr1 ++ tr2) = (clockReads tr1 + clockReads tr2)%nat.
Proof.
  induction tr1 as [|e tr1 IH]; [reflexivity|].
  destruct e; cbn [app clockReads]; rewrite IH; reflexivity.
Qed.

Lemma fetchedNodes_app tr1 tr2 :
  fetchedNodes (tr1 ++ tr2) = (fetchedNodes tr1 + fetchedNodes tr2)%nat.
Proof.
  induction tr1 as [|e tr1 IH]; [reflexivity|].
  destruct e as [| n [node|cause] | |]; cbn [app fetchedNodes];
    rewrite IH; reflexivity.
Qed.

Lemma alertEvents_no_clock_no_fetch (alertSpec : types.NodeAlertSpec)
    (cfg : Cfg) d :
  clockReads (alertEvents alertSpec cfg d) = 0%nat
  /\ fetchedNodes (alertEvents alertSpec cfg d) = 0%nat.
Proof. destruct d; split; reflexivity. Qed.

Lemma alertEvents_routed (alertSpec : types.NodeAlertSpec) (cfg : Cfg) d :
  Forall (routedTo alertSpec cfg) (alertEvents alertSpec cfg d).
Proof.
  destruct d; cbn; constructor; [|constructor].
  cbn. repeat split.
Qed.

Lemma loopTrace_clock (alertSpec : types.NodeAlertSpec) tick (cfg : Cfg)
    items tr r :
  loopTrace alertSpec tick cfg items tr r ->
  clockReads tr = fetchedNodes tr.
Proof.
  induction 1 as [|nodedata rest cause|nodedata rest node t tr r H IH];
    [reflexivity | reflexivity |].
  cbn [clockReads fetchedNodes].
  rewrite clockReads_app, fetchedNodes_app.
  destruct (alertEvents_no_clock_no_fetch alertSpec cfg
              (nodeAlert alertSpec tick t node)) as [-> ->].
  cbn [Nat.add]. f_equal. exact IH.
Qed.

Lemma loopTrace_routed (alertSpec : types.NodeAlertSpec) tick (cfg : Cfg)
    items tr r :
  loopTrace alertSpec tick cfg items tr r ->
  Forall (routedTo alertSpec cfg) tr.
Proof.
  induction 1 as [|nodedata rest cause|nodedata rest node t tr r H IH].
  - constructor.
  - constructor; [exact I | constructor].
  - constructor; [exact I|]. constructor; [exact I|].
    apply Forall_app. split; [apply alertEvents_routed | exact IH].
Qed.

Lemma loopTrace_silent (alertSpec : types.NodeAlertSpec) tick (cfg : Cfg)
    items tr r :
  (forall t node, nodeAlert alertSpec tick t node = None) ->
  loopTrace alertSpec tick cfg items tr r ->
  dispatches tr = [].
Proof.
  intros Hnone.
  induction 1 as [|nodedata rest cause|nodedata rest node t tr r H IH];
    [reflexivity | reflexivity |].
  rewrite Hnone. exact IH.
Qed.

Lemma messages_dispatches tr : messages (dispatches tr) = messages tr.
Proof.
  unfold dispatches. induction tr as [|e tr IH]; [reflexivity|].
  destruct e; cbn [filter isAlert messages]; rewrite ?IH; reflexivity.
Qed.

Lemma routedTo_same_alerter (s1 s2 : types.NodeAlertSpec) (cfg : Cfg) tr :
  types.AlerterType s1 = types.AlerterType s2 ->
  types.AlerterName s1 = types.AlerterName s2 ->
  Forall (routedTo s1 cfg) tr -> Forall (routedTo s2 cfg) tr.
Proof.
  intros Ht Hn. apply Forall_impl. intros e. unfold routedTo.
  destruct e; [auto | auto | auto |]. rewrite Ht, Hn. auto.
Qed.
End MoreTraceFacts.

Lemma nodeAlert_all_opted_out alertSpec tick t node :
  types.NodeReady (types.ReportStatus alertSpec) = false ->
  types.NodeOutOfDisk (types.ReportStatus alertSpec) = false ->
  types.NodeMemoryPressure (types.ReportStatus alertSpec) = false ->
  types.NodeDiskPressure (types.ReportStatus alertSpec) = false ->
  nodeAlert alertSpec tick t node = None.
Proof.
  intros H1 H2 H3 H4. unfold nodeAlert.
  destruct (_ >? _); [|reflexivity].
  apply firstFiring_none_iff, find_none_forall.
  intros c _. unfold fires.
  destruct (kindOf (corev1.Type_ c)) as [[]|]; cbn [optIn];
    rewrite ?H1, ?H2, ?H3, ?H4; try apply andb_false_r; reflexivity.
Qed.

Lemma defaultThreshold_flags alertSpec :
  types.NodeReady (types.ReportStatus (defaultThreshold alertSpec))
  = types.NodeReady (types.ReportStatus alertSpec)
  /\ types.NodeOutOfDisk (types.ReportStatus (defaultThreshold alertSpec))
     = types.NodeOutOfDisk (types.ReportStatus alertSpec)
  /\ types.NodeMemoryPressure
       (types.ReportStatus (defaultThreshold alertSpec))
     = types.NodeMemoryPressure (types.ReportStatus alertSpec)
  /\ types.NodeDiskPressure (types.ReportStatus (defaultThreshold alertSpec))
     = types.NodeDiskPressure (types.ReportStatus alertSpec).
Proof.
  unfold defaultThreshold.
  destruct (types.PendingThreshold (types.ReportStatus alertSpec) =? 0);
    repeat split.
Qed.

Section MorePollNodeFacts.
Context {W Cfg : Type}.
Variable env : Env W Cfg.

(** X1.  For a filtered spec, a list call that fails is the only call of
    the poll: it returns an error whose message carries the cause, fetches
    no node and dispatches nothing, not even the minimum-count alert. *)
Theorem PollNode_list_failure_aborts alertSpec tick (cfg : Cfg) w cause :
  types.Name alertSpec = "*"%string ->
  fst (nodesList env (filterListOptions env alertSpec) w) = inr cause ->
  let out := PollNode env alertSpec tick cfg w in
  value out = Some {| Message := ("Unable to get nodes: " ++ cause)%string |}
  /\ events out = [EvList (filterListOptions env alertSpec) (inr cause)]
  /\ dispatches (events out) = []
  /\ getNames (events out) = [].
Proof.
  intros Hname Hlist out. subst out.
  rewrite (PollNode_list_failed _ _ _ _ _ _ Hname Hlist).
  repeat split.
Qed.

(** X2.  For a filtered spec whose list call succeeded, the poll
    dispatches the minimum-count message exactly when the node count,
    truncated to 32 bits as the code does, is below [minNodes]; for a
    count that fits 32 bits, exactly when the count itself is below
    [minNodes], so a cluster at or above the minimum never gets it. *)
Theorem PollNode_under_minimum_iff alertSpec tick (cfg : Cfg) w nodes :
  types.Name alertSpec = "*"%string ->
  fst (nodesList env (filterListOptions env alertSpec) w) = inl nodes ->
  let count := Z.of_nat (List.length (corev1.Items nodes)) in
  let alerted :=
    In (underMinimumMessage (types.NodeFilter alertSpec))
       (messages (events (PollNode env alertSpec tick cfg w))) in
  (alerted
   <-> Int32.wrap count < types.MinNodes (types.ReportStatus alertSpec))
  /\ (count <= Int32.max_signed ->
      (alerted <-> count < types.MinNodes (types.ReportStatus alertSpec))).
Proof.
  intros Hname Hlist count alerted.
  assert (Hiff : alerted
                 <-> Int32.wrap count
                     < types.MinNodes (types.ReportStatus alertSpec)).
  { subst alerted.
    rewrite (PollNode_filtered _ _ _ _ _ _ Hname Hlist). cbv zeta.
    cbn [events messages]. rewrite messages_app. fold count.
    destruct (Z.ltb_spec (Int32.wrap count)
                (types.MinNodes (types.ReportStatus alertSpec))) as [Hlt|Hge].
    - split; [intros _; exact Hlt|]. intros _. left. reflexivity.
    - split; [|lia]. cbn [messages app]. intros Hin. exfalso.
      destruct (loopTrace_messages _ _ _ _ _ _
                  (pollItems_loopTrace _ _ _ _ _ _) _ Hin) as [k Hk].
      destruct (defaultThreshold_fields alertSpec) as (Hn & _).
      rewrite Hn, Hname in Hk.
      exact (underMinimum_not_node_alert _ _ Hk). }
  split; [exact Hiff|].
  intros Hfit. rewrite Hiff, Int32_wrap_in_range; [reflexivity|].
  unfold Int32.in_range, Int32.min_signed. subst count. lia.
Qed.

(** X3.  A filtered spec whose list call returns no node makes no fetch
    by name and reads no clock, returns [nil], and dispatches the
    minimum-count message if [minNodes] is positive and nothing
    otherwise. *)
Theorem PollNode_empty_list alertSpec tick (cfg : Cfg) w nodes :
  types.Name alertSpec = "*"%string ->
  fst (nodesList env (filterListOptions env alertSpec) w) = inl nodes ->
  corev1.Items nodes = [] ->
  let out := PollNode env alertSpec tick cfg w in
  value out = None
  /\ getNames (events out) = []
  /\ clockReads (events out) = 0%nat
  /\ messages (events out)
     = if 0 <? types.MinNodes (types.ReportStatus alertSpec)
       then [underMinimumMessage (types.NodeFilter alertSpec)]
       else [].
Proof.
  intros Hname Hlist Hempty out. subst out.
  rewrite (PollNode_filtered _ _ _ _ _ _ Hname Hlist). cbv zeta.
  rewrite Hempty. cbn [List.length Z.of_nat pollItems ret value events].
  change (Int32.wrap 0) with 0.
  destruct (0 <? types.MinNodes (types.ReportStatus alertSpec));
    repeat split.
Qed.

(** X8.  Every dispatch call of a poll goes to the alerter type and name
    of the spec, with the alerter configuration the poll was given. *)
Theorem PollNode_dispatches_routed alertSpec tick (cfg : Cfg) w :
  Forall (routedTo alertSpec cfg) (events (PollNode env alertSpec tick cfg w)).
Proof.
  destruct (defaultThreshold_fields alertSpec) as (_ & _ & Hty & Hnm & _).
  destruct (String.eqb_spec (types.Name alertSpec) "*") as [Hname|Hname].
  - destruct (fst (nodesList env (filterListOptions env alertSpec) w))
      as [nodes|cause] eqn:Hlist.
    + rewrite (PollNode_filtered _ _ _ _ _ _ Hname Hlist). cbv zeta.
      cbn [events]. constructor; [exact I|].
      apply Forall_app. split.
      * destruct (_ <? _); constructor; [|constructor].
        cbn. repeat split.
      * apply (routedTo_same_alerter (defaultThreshold alertSpec));
          [exact Hty | exact Hnm |].
        apply (loopTrace_routed _ _ _ _ _ _ (pollItems_loopTrace _ _ _ _ _ _)).
    + rewrite (PollNode_list_failed _ _ _ _ _ _ Hname Hlist).
      constructor; [exact I | constructor].
  - rewrite (PollNode_named _ _ _ _ _ Hname). cbv zeta.
    destruct (fst (nodesGet env (types.Name alertSpec) w)) as [node|cause].
    + cbn [events]. constructor; [exact I|].
      rewrite checkNode_events. constructor; [exact I|].
      apply (routedTo_same_alerter (defaultThreshold alertSpec));
        [exact Hty | exact Hnm | apply alertEvents_routed].
    + constructor; [exact I | constructor].
Qed.

(** X11.  A poll reads the clock exactly once for every node it fetched
    successfully by name and at no other time: not for the list call, not
    for a failed fetch, not for the minimum-count alert. *)
Theorem PollNode_one_clock_reading_per_node alertSpec tick (cfg : Cfg) w :
  clockReads (events (PollNode env alertSpec tick cfg w))
  = fetchedNodes (events (PollNode env alertSpec tick cfg w)).
Proof.
  destruct (String.eqb_spec (types.Name alertSpec) "*") as [Hname|Hname].
  - destruct (fst (nodesList env (filterListOptions env alertSpec) w))
      as [nodes|cause] eqn:Hlist.
    + rewrite (PollNode_filtered _ _ _ _ _ _ Hname Hlist). cbv zeta.
      cbn [events clockReads fetchedNodes].
      rewrite clockReads_app, fetchedNodes_app.
      rewrite (loopTrace_clock _ _ _ _ _ _ (pollItems_loopTrace _ _ _ _ _ _)).
      destruct (_ <? _); reflexivity.
    + rewrite (PollNode_list_failed _ _ _ _ _ _ Hname Hlist). reflexivity.
  - rewrite (PollNode_named _ _ _ _ _ Hname). cbv zeta.
    destruct (fst (nodesGet env (types.Name alertSpec) w)) as [node|cause].
    + cbn [events clockReads fetchedNodes]. rewrite checkNode_events.
      cbn [clockReads fetchedNodes]. f_equal.
      destruct (alertEvents_no_clock_no_fetch (defaultThreshold alertSpec) cfg
                  (nodeAlert (defaultThreshold alertSpec) tick
                     (fst (timeNowUnix env
                             (snd (nodesGet env (types.Name alertSpec) w))))
                     node)) as [-> ->].
      reflexivity.
    + reflexivity.
Qed.
End MorePollNodeFacts.

Section ListedNodes.
Context {W Cfg : Type}.
Variable env : Env W Cfg.
Variable f : corev1.NodeList -> corev1.NodeList.

Lemma checkNode_relist node alertSpec tick (cfg : Cfg) w :
  checkNode (relist env f) node alertSpec tick cfg w
  = checkNode env node alertSpec tick cfg w.
Proof. rewrite !checkNode_outcome. reflexivity. Qed.

(** The loop looks at the listed nodes only to take their names. *)
Lemma pollItems_relist_names alertSpec tick (cfg : Cfg) items :
  forall items' w,
    map corev1.GetName items = map corev1.GetName items' ->
    pollItems (relist env f) alertSpec tick cfg items w
    = pollItems env alertSpec tick cfg items' w.
Proof.
  induction items as [|nodedata rest IH]; intros [|nodedata' rest'] w Hnames;
    try discriminate Hnames; [reflexivity|].
  cbn [map] in Hnames. injection Hnames as Hname Hrest.
  cbn [pollItems]. unfold bind, Get.
  change (metav1.Name (corev1.ObjectMeta nodedata))
    with (corev1.GetName nodedata).
  change (metav1.Name (corev1.ObjectMeta nodedata'))
    with (corev1.GetName nodedata').
  rewrite Hname. cbn [relist nodesGet].
  destruct (nodesGet env (corev1.GetName nodedata') w) as [[node|cause] w1];
    cbn [value events world]; [|reflexivity].
  rewrite checkNode_relist, (IH rest' _ Hrest). reflexivity.
Qed.

(** X4.  A filtered poll uses the answer of the list call only for the
    number of nodes and their names: each node is evaluated as the fetch by
    name returns it.  So if the list answer is altered in any way that
    keeps the names in order (other timestamps, other conditions), the
    poll returns the same error, fetches the same names, makes the same
    dispatch calls and, after its first call, exactly the same calls. *)
Theorem PollNode_listed_nodes_matter_by_name_only
    alertSpec tick (cfg : Cfg) w :
  (forall nodes,
     map corev1.GetName (corev1.Items (f nodes))
     = map corev1.GetName (corev1.Items nodes)) ->
  let o := PollNode env alertSpec tick cfg w in
  let o' := PollNode (relist env f) alertSpec tick cfg w in
  value o' = value o
  /\ world o' = world o
  /\ dispatches (events o') = dispatches (events o)
  /\ getNames (events o') = getNames (events o)
  /\ List.tl (events o') = List.tl (events o).
Proof.
  intros Hf o o'. subst o o'.
  destruct (String.eqb_spec (types.Name alertSpec) "*") as [Hname|Hname].
  - destruct (fst (nodesList env (filterListOptions env alertSpec) w))
      as [nodes|cause] eqn:Hlist.
    + assert (Hlist' :
        fst (nodesList (relist env f)
               (filterListOptions (relist env f) alertSpec) w)
        = inl (f nodes)).
      { cbn [relist nodesList fst].
        change (filterListOptions (relist env f) alertSpec)
          with (filterListOptions env alertSpec).
        rewrite Hlist. reflexivity. }
      rewrite (PollNode_filtered _ _ _ _ _ _ Hname Hlist).
      rewrite (PollNode_filtered _ _ _ _ _ _ Hname Hlist'). cbv zeta.
      assert (Hlen : List.length (corev1.Items (f nodes))
                     = List.length (corev1.Items nodes)).
      { rewrite <- (length_map corev1.GetName (corev1.Items (f nodes))),
          Hf, length_map. reflexivity. }
      rewrite Hlen.
      change (filterListOptions (relist env f) alertSpec)
        with (filterListOptions env alertSpec).
      cbn [relist nodesList alertFn snd].
      rewrite (pollItems_relist_names _ _ _ _ (corev1.Items nodes) _
                 (Hf nodes)).
      cbn [value events world List.tl getNames].
      unfold dispatches. cbn [filter isAlert]. repeat split.
    + assert (Hlist' :
        fst (nodesList (relist env f)
               (filterListOptions (relist env f) alertSpec) w)
        = inr cause).
      { cbn [relist nodesList fst].
        change (filterListOptions (relist env f) alertSpec)
          with (filterListOptions env alertSpec).
        rewrite Hlist. reflexivity. }
      rewrite (PollNode_list_failed _ _ _ _ _ _ Hname Hlist).
      rewrite (PollNode_list_failed _ _ _ _ _ _ Hname Hlist').
      repeat split.
  - rewrite !(PollNode_named _ _ _ _ _ Hname). cbv zeta.
    cbn [relist nodesGet].
    destruct (fst (nodesGet env (types.Name alertSpec) w)) as [node|cause].
    + rewrite checkNode_relist. repeat split.
    + repeat split.
Qed.
End ListedNodes.

Section LoopAndSpecFacts.
Context {W Cfg : Type}.
Variable env : Env W Cfg.

(** X12.  The loop over a node list [pre ++ post] is the loop over [pre]
    followed, if no fetch failed there, by the loop over [post] from the
    world [pre] left; if a fetch of [pre] failed, nothing of [post] is
    touched.  The calls made for [pre], its dispatches included, stand
    either way. *)
Theorem pollItems_app alertSpec tick (cfg : Cfg) pre post :
  forall w,
    let o1 := pollItems env alertSpec tick cfg pre w in
    pollItems env alertSpec tick cfg (pre ++ post) w
    = match value o1 with
      | Some err => o1
      | None =>
        let o2 := pollItems env alertSpec tick cfg post (world o1) in
        Build_Outcome (value o2) (events o1 ++ events o2) (world o2)
      end.
Proof.
  induction pre as [|nodedata rest IH]; intros w; cbv zeta.
  - cbn [app pollItems ret value events world].
    destruct (pollItems env alertSpec tick cfg post w); reflexivity.
  - cbn [app pollItems]. unfold bind, Get.
    destruct (nodesGet env (corev1.GetName nodedata) w) as [[node|cause] w1];
      cbn [value events world ret app]; [|reflexivity].
    rewrite IH. cbv zeta.
    destruct (pollItems env alertSpec tick cfg rest
                (world (checkNode env node alertSpec tick cfg w1)))
      as [[err|] evs w2]; cbn [value events world].
    + reflexivity.
    + rewrite app_assoc. reflexivity.
Qed.

(** X6.  With all four opt-in flags off no node-level alert is ever
    dispatched: the only message a poll can dispatch is the minimum-count
    one, and a poll under a literal name dispatches nothing. *)
Theorem PollNode_all_opted_out alertSpec tick (cfg : Cfg) w :
  types.NodeReady (types.ReportStatus alertSpec) = false ->
  types.NodeOutOfDisk (types.ReportStatus alertSpec) = false ->
  types.NodeMemoryPressure (types.ReportStatus alertSpec) = false ->
  types.NodeDiskPressure (types.ReportStatus alertSpec) = false ->
  (forall m,
     In m (messages (events (PollNode env alertSpec tick cfg w))) ->
     m = underMinimumMessage (types.NodeFilter alertSpec))
  /\ (types.Name alertSpec <> "*"%string ->
      dispatches (events (PollNode env alertSpec tick cfg w)) = []).
Proof.
  intros H1 H2 H3 H4.
  destruct (defaultThreshold_flags alertSpec) as (F1 & F2 & F3 & F4).
  assert (Hnone : forall t node,
             nodeAlert (defaultThreshold alertSpec) tick t node = None).
  { intros t node. apply nodeAlert_all_opted_out; congruence. }
  split.
  - intros m.
    destruct (String.eqb_spec (types.Name alertSpec) "*") as [Hname|Hname].
    + destruct (fst (nodesList env (filterListOptions env alertSpec) w))
        as [nodes|cause] eqn:Hlist.
      * rewrite (PollNode_filtered _ _ _ _ _ _ Hname Hlist). cbv zeta.
        cbn [events messages]. rewrite messages_app.
        rewrite <- (messages_dispatches (events (pollItems _ _ _ _ _ _))).
        rewrite (loopTrace_silent _ _ _ _ _ _ Hnone
                   (pollItems_loopTrace _ _ _ _ _ _)).
        rewrite app_nil_r.
        destruct (_ <? _); cbn; [intros [<-|[]]; reflexivity | intros []].
      * rewrite (PollNode_list_failed _ _ _ _ _ _ Hname Hlist).
        cbn. intros [].
    + rewrite (PollNode_named _ _ _ _ _ Hname). cbv zeta.
      destruct (fst (nodesGet env (types.Name alertSpec) w)) as [node|cause].
      * cbn [events messages]. rewrite checkNode_events, Hnone.
        cbn. intros [].
      * cbn. intros [].
  - intros Hname. rewrite (PollNode_named _ _ _ _ _ Hname). cbv zeta.
    destruct (fst (nodesGet env (types.Name alertSpec) w)) as [node|cause].
    + cbn [events]. rewrite checkNode_events, Hnone. reflexivity.
    + reflexivity.
Qed.

(** X13.  A poll under a literal name never looks at the filter or at the
    minimum count of the spec: changing them changes no call and no
    result, and in particular such a poll never dispatches the
    minimum-count alert and makes at most one dispatch call. *)
Theorem PollNode_named_ignores_filter
    alertSpec tick (cfg : Cfg) w nodeFilter minNodes :
  types.Name alertSpec <> "*"%string ->
  PollNode env (withFilter alertSpec nodeFilter minNodes) tick cfg w
  = PollNode env alertSpec tick cfg w
  /\ (List.length (dispatches (events (PollNode env alertSpec tick cfg w)))
      <= 1)%nat.
Proof.
  intros Hname. split.
  - rewrite (PollNode_named env alertSpec _ _ _ Hname).
    rewrite (PollNode_named env (withFilter alertSpec nodeFilter minNodes)
               _ _ _ Hname).
    cbv zeta. cbn [withFilter types.Name].
    destruct (fst (nodesGet env (types.Name alertSpec) w)) as [node|cause];
      [|reflexivity].
    rewrite !checkNode_outcome. cbv zeta. unfold defaultThreshold.
    cbn [withFilter types.ReportStatus types.PendingThreshold].
    destruct (types.PendingThreshold (types.ReportStatus alertSpec) =? 0);
      reflexivity.
  - rewrite (PollNode_named env alertSpec _ _ _ Hname). cbv zeta.
    destruct (fst (nodesGet env (types.Name alertSpec) w)) as [node|cause].
    + cbn [events]. rewrite checkNode_events.
      unfold dispatches. cbn [filter isAlert].
      fold (dispatches (alertEvents (defaultThreshold alertSpec) cfg
              (nodeAlert (defaultThreshold alertSpec) tick
                 (fst (timeNowUnix env
                         (snd (nodesGet env (types.Name alertSpec) w))))
                 node))).
      rewrite dispatches_alertEvents. apply alertEvents_length.
    + cbn. lia.
Qed.
End LoopAndSpecFacts.

(** ** The further statements on the sample clusters *)

Lemma PollNode_list_failure_aborts_witness :
  let env := MoreSamples.outage Sample.clock [Sample.node1] in
  let out := PollNode env Sample.specWorkers 10 tt 0%nat in
  value out
  = Some {| Message := "Unable to get nodes: connection refused" |}
  /\ events out
     = [EvList (filterListOptions env Sample.specWorkers)
               (inr "connection refused"%string)]
  /\ dispatches (events out) = []
  /\ getNames (events out) = [].
Proof.
  exact (PollNode_list_failure_aborts
           (MoreSamples.outage Sample.clock [Sample.node1])
           Sample.specWorkers 10 tt 0%nat "connection refused"
           eq_refl eq_refl).
Defined.

Lemma PollNode_under_minimum_iff_witness :
  let env :=
    Sample.cluster Sample.clock [Sample.node1; Sample.node2]
                   [Sample.node1; Sample.node2] in
  let alerted :=
    In (underMinimumMessage "role=worker")
       (messages (events (PollNode env Sample.specWorkers 10 tt 0%nat))) in
  (alerted <-> Int32.wrap 2 < 3)
  /\ (2 <= Int32.max_signed -> (alerted <-> 2 < 3)).
Proof.
  exact (PollNode_under_minimum_iff
           (Sample.cluster Sample.clock [Sample.node1; Sample.node2]
                           [Sample.node1; Sample.node2])
           Sample.specWorkers 10 tt 0%nat
           {| corev1.Items := [Sample.node1; Sample.node2] |}
           eq_refl eq_refl).
Defined.

Lemma PollNode_empty_list_witness :
  let env := Sample.cluster Sample.clock [] [Sample.node1] in
  let out := PollNode env Sample.specWorkers 10 tt 0%nat in
  value out = None
  /\ getNames (events out) = []
  /\ clockReads (events out) = 0%nat
  /\ messages (events out) = [underMinimumMessage "role=worker"].
Proof.
  exact (PollNode_empty_list
           (Sample.cluster Sample.clock [] [Sample.node1])
           Sample.specWorkers 10 tt 0%nat {| corev1.Items := [] |}
           eq_refl eq_refl eq_refl).
Defined.

Lemma namesOnly_keeps_names (nodes : corev1.NodeList) :
  map corev1.GetName (corev1.Items (MoreSamples.namesOnly nodes))
  = map corev1.GetName (corev1.Items nodes).
Proof.
  unfold MoreSamples.namesOnly. cbn [corev1.Items].
  rewrite map_map. apply map_ext. reflexivity.
Defined.

Lemma PollNode_listed_nodes_matter_by_name_only_witness :
  let env :=
    Sample.cluster Sample.clock [Sample.node1; Sample.node2]
                   [Sample.node1; Sample.node2] in
  let o := PollNode env Sample.specWorkers 10 tt 0%nat in
  let o' :=
    PollNode (relist env MoreSamples.namesOnly) Sample.specWorkers 10 tt
             0%nat in
  value o' = value o
  /\ world o' = world o
  /\ dispatches (events o') = dispatches (events o)
  /\ getNames (events o') = getNames (events o)
  /\ List.tl (events o') = List.tl (events o).
Proof.
  exact (PollNode_listed_nodes_matter_by_name_only
           (Sample.cluster Sample.clock [Sample.node1; Sample.node2]
                           [Sample.node1; Sample.node2])
           MoreSamples.namesOnly Sample.specWorkers 10 tt 0%nat
           namesOnly_keeps_names).
Defined.

Lemma PollNode_all_opted_out_witness :
  let env :=
    Sample.cluster Sample.clock [Sample.node1; Sample.node2]
                   [Sample.node1; Sample.node2] in
  (forall m,
     In m (messages (events (PollNode env MoreSamples.specSilent 10 tt
                               0%nat))) ->
     m = underMinimumMessage "role=worker")
  /\ (types.Name MoreSamples.specSilent <> "*"%string ->
      dispatches (events (PollNode env MoreSamples.specSilent 10 tt 0%nat))
      = []).
Proof.
  exact (PollNode_all_opted_out
           (Sample.cluster Sample.clock [Sample.node1; Sample.node2]
                           [Sample.node1; Sample.node2])
           MoreSamples.specSilent 10 tt 0%nat
           eq_refl eq_refl eq_refl eq_refl).
Defined.

Lemma checkNode_stale_conditions_no_dispatch_witness :
  let env := Sample.cluster Sample.clock [] [] in
  events (checkNode env MoreSamples.nodeStale Sample.spec1 10 tt 0%nat)
  = [EvNow Sample.clock]
  /\ dispatches
       (events (checkNode env MoreSamples.nodeStale Sample.spec1 10 tt 0%nat))
     = [].
Proof.
  apply (checkNode_stale_conditions_no_dispatch
           (Sample.cluster Sample.clock [] [])
           MoreSamples.nodeStale Sample.spec1 10 tt 0%nat).
  intros c [<-|[<-|[]]]; vm_compute; discriminate.
Defined.

Lemma checkNode_higher_threshold_only_silences_witness :
  let env := Sample.cluster Sample.clock [] [] in
  let lower :=
    dispatches (events (checkNode env Sample.node1
                          (types.setPendingThreshold Sample.spec1 10)
                          10 tt 0%nat)) in
  let higher :=
    dispatches (events (checkNode env Sample.node1
                          (types.setPendingThreshold Sample.spec1 2000)
                          10 tt 0%nat)) in
  higher = [] \/ higher = lower.
Proof.
  apply (checkNode_higher_threshold_only_silences
           (Sample.cluster Sample.clock [] [])
           Sample.node1 Sample.spec1 10 tt 0%nat 10 2000).
  vm_compute. discriminate.
Defined.

Lemma checkNode_longer_tick_still_dispatches_witness :
  let env := Sample.cluster Sample.clock [] [] in
  List.length
    (dispatches (events (checkNode env Sample.node1 Sample.spec1 1000 tt
                           0%nat)))
  = 1%nat.
Proof.
  apply (checkNode_longer_tick_still_dispatches
           (Sample.cluster Sample.clock [] [])
           Sample.node1 Sample.spec1 10 1000 tt 0%nat).
  - vm_compute. discriminate.
  - vm_compute. discriminate.
Defined.

Lemma PollNode_dispatch_bound_witness :
  let env :=
    Sample.cluster Sample.clock [Sample.node1; Sample.node2]
                   [Sample.node1; Sample.node2] in
  (List.length (dispatches (events (PollNode env Sample.specWorkers 10 tt
                                      0%nat)))
   <= 3)%nat.
Proof.
  exact (PollNode_dispatch_bound
           (Sample.cluster Sample.clock [Sample.node1; Sample.node2]
                           [Sample.node1; Sample.node2])
           Sample.specWorkers 10 tt 0%nat
           {| corev1.Items := [Sample.node1; Sample.node2] |}
           eq_refl eq_refl).
Defined.

Lemma PollNode_named_ignores_filter_witness :
  let env := Sample.cluster Sample.clock [] [Sample.node1] in
  PollNode env (withFilter Sample.spec1 "role=worker" 5) 10 tt 0%nat
  = PollNode env Sample.spec1 10 tt 0%nat
  /\ (List.length (dispatches (events (PollNode env Sample.spec1 10 tt
                                          0%nat)))
      <= 1)%nat.
Proof.
  apply (PollNode_named_ignores_filter
           (Sample.cluster Sample.clock [] [Sample.node1])
           Sample.spec1 10 tt 0%nat "role=worker" 5).
  discriminate.
Defined.
